(** * shapes: points, segments, polygons and ellipses (src/src/index.ts)

    A shallow embedding of the TypeScript library and the properties its
    specification states about it.  The numbers of the program are read in
    two ways.

    Exact arithmetic (the first part of the file).  The specification
    describes coordinates, lengths and tolerances as real values: a number
    is a real of the Standard Library, [Math.sqrt], [Math.pow], [Math.abs]
    and [Math.PI] are [sqrt], [pow], [Rabs] and [PI], and [/] with a
    computed divisor has a result of type [number], which adds [Infinity],
    [-Infinity] and [NaN], so that a division by zero is a visible event.
    This reading carries the properties that rest on control flow, class
    dispatch, array structure and the direction of the comparisons, which
    rounding does not touch.

    Binary64 (module [Binary64]).  The numbers are the IEEE 754 binary64
    values the program computes with, every operation rounded to nearest,
    ties to even, through [SpecFloat] at precision 53 and exponent bound
    1024.  This reading carries the properties of computed values: areas,
    distances, the equation of the ellipse. *)

From Stdlib Require Import Reals Lra Lia List ZArith Bool String PeanoNat.
From Stdlib Require Import SpecFloat.
Import ListNotations.
Open Scope R_scope.

(** ** Numbers *)

Definition Rltb (u v : R) : bool := if Rlt_dec u v then true else false.
Definition Rleb (u v : R) : bool := if Rle_dec u v then true else false.
Definition Rgtb (u v : R) : bool := if Rgt_dec u v then true else false.

Inductive number : Type :=
| Fin (r : R)
| Infinity
| NegInfinity
| NaN.

Module Num.

(** [u / v] on finite operands.  A zero divisor of this program is a
    positive zero ([x - x] and [Math.pow(x, 2)] never give [-0]), so the
    sign of the quotient is the sign of the dividend. *)
Definition div (u v : R) : number :=
  if Req_dec_T v 0 then
    if Req_dec_T u 0 then NaN
    else if Rlt_dec 0 u then Infinity else NegInfinity
  else Fin (u / v).

Definition add (m n : number) : number :=
  match m, n with
  | NaN, _ | _, NaN => NaN
  | Fin u, Fin v => Fin (u + v)
  | Infinity, NegInfinity | NegInfinity, Infinity => NaN
  | Infinity, _ | _, Infinity => Infinity
  | NegInfinity, _ | _, NegInfinity => NegInfinity
  end.

Definition neg (n : number) : number :=
  match n with
  | Fin u => Fin (- u)
  | Infinity => NegInfinity
  | NegInfinity => Infinity
  | NaN => NaN
  end.

Definition sub (m n : number) : number := add m (neg n).

(** [Math.abs] *)
Definition abs (n : number) : number :=
  match n with
  | Fin u => Fin (Rabs u)
  | Infinity | NegInfinity => Infinity
  | NaN => NaN
  end.

(** [m < n]: false as soon as an operand is [NaN]. *)
Definition ltb (m n : number) : bool :=
  match m, n with
  | NaN, _ | _, NaN => false
  | Fin u, Fin v => Rltb u v
  | NegInfinity, NegInfinity => false
  | NegInfinity, _ => true
  | _, NegInfinity => false
  | Infinity, _ => false
  | Fin _, Infinity => true
  end.

(** [m <= n] *)
Definition leb (m n : number) : bool :=
  match m, n with
  | NaN, _ | _, NaN => false
  | Fin u, Fin v => Rleb u v
  | NegInfinity, _ => true
  | _, Infinity => true
  | Infinity, _ => false
  | Fin _, NegInfinity => false
  end.

End Num.

(** ** Exceptions *)

Inductive exn : Type :=
| RangeError (message : string)
| Error (message : string).

(** The outcome of a call that may throw. *)
Inductive completion (A : Type) : Type :=
| Return (v : A)
| Throw (e : exn).
Arguments Return {A} v.
Arguments Throw {A} e.

(** ** Arrays

    [Array.prototype.map] and [Array.prototype.reduce] hand the element and
    its index to the callback; the third argument of the callbacks of this
    program, the array itself, is the list the call is made on. *)

Fixpoint map_from {A B : Type} (f : A -> nat -> B) (i : nat) (l : list A)
  : list B :=
  match l with
  | [] => []
  | v :: t => f v i :: map_from f (S i) t
  end.

Definition Array_map {A B : Type} (f : A -> nat -> B) (l : list A) : list B :=
  map_from f 0 l.

Fixpoint reduce_from {A B : Type} (f : B -> A -> nat -> B) (i : nat) (acc : B)
  (l : list A) : B :=
  match l with
  | [] => acc
  | v :: t => reduce_from f (S i) (f acc v i) t
  end.

Definition Array_reduce {A B : Type} (f : B -> A -> nat -> B) (init : B)
  (l : list A) : B :=
  reduce_from f 0 init l.

(** [items[index]] for an integer index: [None] is [undefined], which is what
    JavaScript gives below 0 and from the length on. *)
Definition Array_get {A : Type} (items : list A) (index : Z) : option A :=
  if (index <? 0)%Z then None else nth_error items (Z.to_nat index).

(** ** The default tolerance

    [DEFAULT_EPSILON] is a module-level variable: the state of the library. *)

Record Env : Type := { DEFAULT_EPSILON : R }.

Definition initial_env : Env := {| DEFAULT_EPSILON := 1 / 100 |}.

Definition setEpsilon (value : R) (_ : Env) : Env :=
  {| DEFAULT_EPSILON := value |}.

(** An optional [epsilon] argument: the default applies when it is omitted. *)
Definition epsilon_or_default (env : Env) (epsilon : option R) : R :=
  match epsilon with
  | Some e => e
  | None => DEFAULT_EPSILON env
  end.

(** ** Point *)

Record Point : Type := new_Point { x : R; y : R }.

Module Point.

Definition distanceTo (this other : Point) : R :=
  sqrt ((x this - x other) ^ 2 + (y this - y other) ^ 2).

End Point.

(** ** Segment *)

Record Segment : Type := new_Segment { a : Point; b : Point }.

Module Segment.

Definition intersects (env : Env) (this : Segment) (p : Point)
  (epsilon : option R) : bool :=
  Rltb
    (Rabs (Point.distanceTo (a this) p + Point.distanceTo (b this) p
           - Point.distanceTo (a this) (b this)))
    (epsilon_or_default env epsilon).

Definition length (this : Segment) : R :=
  Point.distanceTo (a this) (b this).

End Segment.

(** ** SegmentedShape and its subclasses *)

Record SegmentedShape : Type :=
  { points : list Point;
    segments : list Segment }.

Module SegmentedShape.

(** [pts[i]] where the program reads a point.  Every such read is in range:
    the callbacks read at [next_index], which stays below the length (lemma
    [next_index_lt]), and the loop of [contains] reads at [i], below the
    length, and at [j], the last index or the previous [i] (lemma
    [loop_body_j]).  The default stands for [undefined] and is never the
    result. *)
Definition at_ (pts : list Point) (i : nat) : Point :=
  nth i pts (new_Point 0 0).

(** [i == pts.length - 1 ? 0 : i + 1], the index of the callbacks' [p2]. *)
Definition next_index (pts : list Point) (i : nat) : nat :=
  if (i =? List.length pts - 1)%nat then 0%nat else (i + 1)%nat.

Definition new (p1 p2 p3 : Point) (restPoints : list Point)
  : SegmentedShape :=
  let points := p1 :: p2 :: p3 :: restPoints in
  {| points := points;
     segments :=
       Array_map (fun p i => new_Segment p (at_ points (next_index points i)))
         points |}.

(** [new SegmentedShape(...l)]: the constructor needs three points. *)
Definition of_list (l : list Point) : option SegmentedShape :=
  match l with
  | p1 :: p2 :: p3 :: restPoints => Some (new p1 p2 p3 restPoints)
  | _ => None
  end.

Definition intersects (env : Env) (this : SegmentedShape) (point : Point)
  (epsilon : option R) : bool :=
  let epsilon := epsilon_or_default env epsilon in
  existsb (fun segment => Segment.intersects env segment point (Some epsilon))
    (segments this).

(** The condition of the [if] in the loop of [contains], for the edge
    between [pts[i]] and [pts[j]].  [&&] evaluates its right operand only
    when the left one is true; the second component lists the divisors of
    the divisions that were evaluated. *)
Definition crossing (pts : list Point) (point : Point) (i j : nat)
  : bool * list R :=
  let pi := at_ pts i in
  let pj := at_ pts j in
  if negb (Bool.eqb (Rgtb (y pi) (y point)) (Rgtb (y pj) (y point))) then
    let divisor := y pj - y pi in
    (Num.ltb (Fin (x point))
       (Num.add
          (Num.div ((x pj - x pi) * (y point - y pi)) divisor)
          (Fin (x pi))),
     [divisor])
  else (false, []).

(** The state of the loop: [j], [hit] and the divisors met so far. *)
Definition loop_state : Type := (nat * bool * list R)%type.

(** One iteration for index [i]; the update [j = i++] leaves [j = i]. *)
Definition loop_body (pts : list Point) (point : Point) (st : loop_state)
  (i : nat) : loop_state :=
  let '(j, hit, divisors) := st in
  let '(cond, ds) := crossing pts point i j in
  (i, (if cond then negb hit else hit), divisors ++ ds).

(** [for (let i = 0, j = length - 1; i < length; j = i++)] *)
Definition contains_run (this : SegmentedShape) (point : Point)
  : loop_state :=
  let pts := points this in
  fold_left (loop_body pts point) (seq 0 (List.length pts))
    ((List.length pts - 1)%nat, false, []).

Definition contains (this : SegmentedShape) (point : Point) : bool :=
  snd (fst (contains_run this point)).

(** The divisors of all the divisions an evaluation of [contains] makes. *)
Definition contains_divisors (this : SegmentedShape) (point : Point)
  : list R :=
  snd (contains_run this point).

Definition safeAt {T : Type} (items : list T) (index : Z)
  : completion (option T) :=
  if (index >=? Z.of_nat (List.length items))%Z then
    Throw (RangeError "out of range access")
  else Return (Array_get items index).

Definition pointAt (this : SegmentedShape) (index : Z)
  : completion (option Point) :=
  safeAt (points this) index.

Definition segmentAt (this : SegmentedShape) (index : Z)
  : completion (option Segment) :=
  safeAt (segments this) index.

Definition perimeter (this : SegmentedShape) : R :=
  let pts := points this in
  Array_reduce
    (fun acc p i =>
       let p2 := at_ pts (next_index pts i) in
       acc + Point.distanceTo p p2)
    0 pts.

End SegmentedShape.

(** ** Reading a property of a call's result

    The accessors of the subclasses read [.x] or [.y] of what [pointAt]
    returns.  Reading a property of [undefined] throws a [TypeError], an
    exception the program never constructs itself. *)

Inductive outcome (A : Type) : Type :=
| Value (v : A)
| Raised (e : exn)
| TypeError.
Arguments Value {A} v.
Arguments Raised {A} e.
Arguments TypeError {A}.

(** [c.field] for the result [c] of a call that returns a point. *)
Definition read {A : Type} (field : Point -> A)
  (c : completion (option Point)) : outcome A :=
  match c with
  | Throw e => Raised e
  | Return None => TypeError
  | Return (Some p) => Value (field p)
  end.

(** [u - v], the operands evaluated from left to right. *)
Definition minus (u v : outcome R) : outcome R :=
  match u with
  | Value u' =>
      match v with
      | Value v' => Value (u' - v')
      | Raised e => Raised e
      | TypeError => TypeError
      end
  | Raised e => Raised e
  | TypeError => TypeError
  end.

Module RectangleShape.

Definition new (topLeft bottomRight : Point) : SegmentedShape :=
  SegmentedShape.new
    topLeft
    (new_Point (x bottomRight) (y topLeft))
    bottomRight
    [new_Point (x topLeft) (y bottomRight)].

Definition topLeft (this : SegmentedShape) : completion (option Point) :=
  SegmentedShape.pointAt this 0.

Definition topRight (this : SegmentedShape) : completion (option Point) :=
  SegmentedShape.pointAt this 1.

Definition bottomRight (this : SegmentedShape) : completion (option Point) :=
  SegmentedShape.pointAt this 2.

Definition bottomLeft (this : SegmentedShape) : completion (option Point) :=
  SegmentedShape.pointAt this 3.

Definition width (this : SegmentedShape) : outcome R :=
  minus (read x (bottomRight this)) (read x (topLeft this)).

Definition height (this : SegmentedShape) : outcome R :=
  minus (read y (topLeft this)) (read y (bottomRight this)).

End RectangleShape.

Module TriangleShape.

Definition new (a b c : Point) : SegmentedShape :=
  SegmentedShape.new a b c [].

End TriangleShape.

(** ** EllipseShape and CircleShape

    [CircleShape] extends [EllipseShape]: a value of the class is either a
    plain ellipse or a circle, and a method call dispatches on which. *)

Inductive EllipseShape : Type :=
| new_EllipseShape (center : Point) (a b : R)
| new_CircleShape (center : Point) (radius : R).

Module EllipseShape.

Definition center (this : EllipseShape) : Point :=
  match this with
  | new_EllipseShape c _ _ | new_CircleShape c _ => c
  end.

(** [CircleShape]'s constructor calls [super(center, radius, radius)]. *)
Definition a (this : EllipseShape) : R :=
  match this with
  | new_EllipseShape _ a _ => a
  | new_CircleShape _ radius => radius
  end.

Definition b (this : EllipseShape) : R :=
  match this with
  | new_EllipseShape _ _ b => b
  | new_CircleShape _ radius => radius
  end.

Definition area (this : EllipseShape) : R :=
  PI * a this * b this.

Definition perimeter (this : EllipseShape) : completion R :=
  match this with
  | new_EllipseShape _ _ _ => Throw (Error "too hard to handle!")
  | new_CircleShape _ radius => Return (2 * PI * radius)
  end.

Definition equationFor (this : EllipseShape) (point : Point) : number :=
  Num.add
    (Num.div ((x point - x (center this)) ^ 2) (a this ^ 2))
    (Num.div ((y point - y (center this)) ^ 2) (b this ^ 2)).

Definition intersects (env : Env) (this : EllipseShape) (point : Point)
  (epsilon : option R) : bool :=
  Num.leb (Num.abs (Num.sub (equationFor this point) (Fin 1)))
    (Fin (epsilon_or_default env epsilon)).

Definition contains (this : EllipseShape) (point : Point) : bool :=
  Num.ltb (equationFor this point) (Fin 1).

End EllipseShape.

(** ** The shapes of the README's scenarios *)

Definition triangle_0 : SegmentedShape :=
  TriangleShape.new (new_Point 0 0) (new_Point 10 10) (new_Point 20 5).

Definition rectangle_0 : SegmentedShape :=
  RectangleShape.new (new_Point 0 20) (new_Point 30 0).

(** ** What the specification says, in its own words *)

Module Spec.

(** [|dist(a,p) + dist(p,b) - dist(a,b)|] *)
Definition segment_deviation (s : Segment) (p : Point) : R :=
  Rabs (Point.distanceTo (a s) p + Point.distanceTo p (b s)
        - Point.distanceTo (a s) (b s)).

(** The square of a number that may be infinite or [NaN]. *)
Definition square (n : number) : number :=
  match n with
  | Fin u => Fin (u ^ 2)
  | Infinity | NegInfinity => Infinity
  | NaN => NaN
  end.

(** [((x - cx)/a)^2 + ((y - cy)/b)^2], the quotients taken first. *)
Definition ellipse_equation (e : EllipseShape) (p : Point) : number :=
  Num.add
    (square (Num.div (x p - x (EllipseShape.center e)) (EllipseShape.a e)))
    (square (Num.div (y p - y (EllipseShape.center e)) (EllipseShape.b e))).

(** The same over the reals, where it is defined: [a] and [b] not zero. *)
Definition ellipse_equation_R (e : EllipseShape) (p : Point) : R :=
  ((x p - x (EllipseShape.center e)) / EllipseShape.a e) ^ 2
  + ((y p - y (EllipseShape.center e)) / EllipseShape.b e) ^ 2.

(** The sum over all [i] of [segments[i].length]. *)
Definition sum_of_segment_lengths (segs : list Segment) : R :=
  fold_right Rplus 0 (map Segment.length segs).

(** A perfectly horizontal edge: a boundary segment whose endpoints have
    the same [y]. *)
Definition has_horizontal_edge (s : SegmentedShape) : Prop :=
  exists seg, In seg (segments s) /\ y (a seg) = y (b seg).

(** An evaluation of [contains] performs a division by zero. *)
Definition divides_by_zero (s : SegmentedShape) (p : Point) : Prop :=
  In 0 (SegmentedShape.contains_divisors s p).

End Spec.

(** ** The program in binary64

    The same classes over the numbers the program computes with. *)

Module Binary64.

(** A JavaScript number: a binary64 value (53 bits of precision, exponents
    up to 1024), with one [NaN]. *)
Definition number : Type := spec_float.

Definition prec : Z := 53.
Definition emax : Z := 1024.

Definition add : number -> number -> number := SFadd prec emax.
Definition sub : number -> number -> number := SFsub prec emax.
Definition mul : number -> number -> number := SFmul prec emax.
Definition div : number -> number -> number := SFdiv prec emax.
Definition ltb : number -> number -> bool := SFltb.
Definition leb : number -> number -> bool := SFleb.

(** [u == v] on numbers. *)
Definition eqb : number -> number -> bool := SFeqb.

(** [u > v] is [v < u]: false as soon as an operand is [NaN]. *)
Definition gtb (u v : number) : bool := SFltb v u.

Definition Math_abs : number -> number := SFabs.
Definition Math_sqrt : number -> number := SFsqrt prec emax.

(** [Math.pow(v, 2)]: the rounded product [v * v], which is what the [pow]
    of JavaScript engines returns for the exponent 2. *)
Definition Math_pow2 (v : number) : number := mul v v.

(** [Math.PI], 0x1.921fb54442d18p+1. *)
Definition Math_PI : number := S754_finite false 7074237752028440 (-51).

(** An integer literal. *)
Definition of_Z (z : Z) : number := binary_normalize prec emax z 0 false.

(** The decimal literal that denotes the quotient [n / d] of two positive
    integers: the binary64 value nearest to it. *)
Definition ratio (n d : positive) : number :=
  div (S754_finite false n 0) (S754_finite false d 0).

(** [0], [1] and [2]. *)
Definition zero : number := S754_zero false.
Definition one : number := S754_finite false 4503599627370496 (-52).
Definition two : number := S754_finite false 4503599627370496 (-51).

(** The sign bit; [NaN] has none. *)
Definition signbit (u : number) : bool :=
  match u with
  | S754_zero s | S754_infinity s | S754_finite s _ _ => s
  | S754_nan => false
  end.

(** Neither infinite nor [NaN]. *)
Definition is_finite (u : number) : bool :=
  match u with
  | S754_zero _ | S754_finite _ _ _ => true
  | S754_infinity _ | S754_nan => false
  end.

(** Equal up to the sign of zero. *)
Inductive same_value : number -> number -> Prop :=
| same_eq (u : number) : same_value u u
| same_zero (s s' : bool) : same_value (S754_zero s) (S754_zero s').

Record Env : Type := { DEFAULT_EPSILON : number }.

(** [let DEFAULT_EPSILON = 0.01] *)
Definition initial_env : Env := {| DEFAULT_EPSILON := ratio 1 100 |}.

Definition setEpsilon (value : number) (_ : Env) : Env :=
  {| DEFAULT_EPSILON := value |}.

Definition epsilon_or_default (env : Env) (epsilon : option number) : number :=
  match epsilon with
  | Some e => e
  | None => DEFAULT_EPSILON env
  end.

Record Point : Type := new_Point { x : number; y : number }.

Module Point.

Definition distanceTo (this other : Point) : number :=
  Math_sqrt (add (Math_pow2 (sub (x this) (x other)))
               (Math_pow2 (sub (y this) (y other)))).

End Point.

Record Segment : Type := new_Segment { a : Point; b : Point }.

Module Segment.

Definition intersects (env : Env) (this : Segment) (p : Point)
  (epsilon : option number) : bool :=
  ltb
    (Math_abs (sub (add (Point.distanceTo (a this) p)
                      (Point.distanceTo (b this) p))
                 (Point.distanceTo (a this) (b this))))
    (epsilon_or_default env epsilon).

Definition length (this : Segment) : number :=
  Point.distanceTo (a this) (b this).

End Segment.

Record SegmentedShape : Type :=
  { points : list Point;
    segments : list Segment }.

Module SegmentedShape.

(** [pts[i]] where the program reads a point; the default stands for
    [undefined] and is never the result, every read being in range. *)
Definition at_ (pts : list Point) (i : nat) : Point :=
  nth i pts (new_Point zero zero).

(** [i == pts.length - 1 ? 0 : i + 1] *)
Definition next_index (pts : list Point) (i : nat) : nat :=
  if (i =? List.length pts - 1)%nat then 0%nat else (i + 1)%nat.

Definition new (p1 p2 p3 : Point) (restPoints : list Point)
  : SegmentedShape :=
  let points := p1 :: p2 :: p3 :: restPoints in
  {| points := points;
     segments :=
       Array_map (fun p i => new_Segment p (at_ points (next_index points i)))
         points |}.

(** [new SegmentedShape(...l)]: the constructor needs three points. *)
Definition of_list (l : list Point) : option SegmentedShape :=
  match l with
  | p1 :: p2 :: p3 :: restPoints => Some (new p1 p2 p3 restPoints)
  | _ => None
  end.

Definition intersects (env : Env) (this : SegmentedShape) (point : Point)
  (epsilon : option number) : bool :=
  let epsilon := epsilon_or_default env epsilon in
  existsb (fun segment => Segment.intersects env segment point (Some epsilon))
    (segments this).

(** The condition of the [if] in the loop of [contains]; [&&] evaluates its
    right operand only when the left one is true. *)
Definition crossing (pts : list Point) (point : Point) (i j : nat) : bool :=
  let pi := at_ pts i in
  let pj := at_ pts j in
  if negb (Bool.eqb (gtb (y pi) (y point)) (gtb (y pj) (y point))) then
    ltb (x point)
      (add (div (mul (sub (x pj) (x pi)) (sub (y point) (y pi)))
              (sub (y pj) (y pi)))
         (x pi))
  else false.

(** The state of the loop: [j] and [hit]. *)
Definition loop_state : Type := (nat * bool)%type.

(** One iteration for index [i]; the update [j = i++] leaves [j = i]. *)
Definition loop_body (pts : list Point) (point : Point) (st : loop_state)
  (i : nat) : loop_state :=
  let '(j, hit) := st in
  (i, (if crossing pts point i j then negb hit else hit)).

(** [for (let i = 0, j = length - 1; i < length; j = i++)] *)
Definition contains (this : SegmentedShape) (point : Point) : bool :=
  let pts := points this in
  snd (fold_left (loop_body pts point) (seq 0 (List.length pts))
         ((List.length pts - 1)%nat, false)).

Definition safeAt {T : Type} (items : list T) (index : Z)
  : completion (option T) :=
  if (index >=? Z.of_nat (List.length items))%Z then
    Throw (RangeError "out of range access")
  else Return (Array_get items index).

Definition pointAt (this : SegmentedShape) (index : Z)
  : completion (option Point) :=
  safeAt (points this) index.

Definition segmentAt (this : SegmentedShape) (index : Z)
  : completion (option Segment) :=
  safeAt (segments this) index.

Definition area (this : SegmentedShape) : number :=
  let pts := points this in
  Math_abs
    (Array_reduce
       (fun acc p index =>
          let p2 := at_ pts (next_index pts index) in
          add acc (div (sub (mul (x p) (y p2)) (mul (y p) (x p2))) two))
       zero pts).

Definition perimeter (this : SegmentedShape) : number :=
  let pts := points this in
  Array_reduce
    (fun acc p i =>
       let p2 := at_ pts (next_index pts i) in
       add acc (Point.distanceTo p p2))
    zero pts.

End SegmentedShape.

Module RectangleShape.

Definition new (topLeft bottomRight : Point) : SegmentedShape :=
  SegmentedShape.new
    topLeft
    (new_Point (x bottomRight) (y topLeft))
    bottomRight
    [new_Point (x topLeft) (y bottomRight)].

End RectangleShape.

Module SquareShape.

Definition new (topLeft : Point) (side : number) : SegmentedShape :=
  RectangleShape.new topLeft
    (new_Point (add (x topLeft) side) (sub (y topLeft) side)).

End SquareShape.

Module TriangleShape.

Definition new (a b c : Point) : SegmentedShape :=
  SegmentedShape.new a b c [].

Definition sideAB (this : SegmentedShape) : completion (option Segment) :=
  SegmentedShape.segmentAt this 0.

Definition sideBC (this : SegmentedShape) : completion (option Segment) :=
  SegmentedShape.segmentAt this 1.

Definition sideAC (this : SegmentedShape) : completion (option Segment) :=
  SegmentedShape.segmentAt this 2.

End TriangleShape.

Inductive EllipseShape : Type :=
| new_EllipseShape (center : Point) (a b : number)
| new_CircleShape (center : Point) (radius : number).

Module EllipseShape.

Definition center (this : EllipseShape) : Point :=
  match this with
  | new_EllipseShape c _ _ | new_CircleShape c _ => c
  end.

Definition a (this : EllipseShape) : number :=
  match this with
  | new_EllipseShape _ a _ => a
  | new_CircleShape _ radius => radius
  end.

Definition b (this : EllipseShape) : number :=
  match this with
  | new_EllipseShape _ _ b => b
  | new_CircleShape _ radius => radius
  end.

Definition area (this : EllipseShape) : number :=
  mul (mul Math_PI (a this)) (b this).

Definition perimeter (this : EllipseShape) : completion number :=
  match this with
  | new_EllipseShape _ _ _ => Throw (Error "too hard to handle!")
  | new_CircleShape _ radius => Return (mul (mul two Math_PI) radius)
  end.

Definition equationFor (this : EllipseShape) (point : Point) : number :=
  add
    (div (Math_pow2 (sub (x point) (x (center this)))) (Math_pow2 (a this)))
    (div (Math_pow2 (sub (y point) (y (center this)))) (Math_pow2 (b this))).

Definition intersects (env : Env) (this : EllipseShape) (point : Point)
  (epsilon : option number) : bool :=
  leb (Math_abs (sub (equationFor this point) one))
    (epsilon_or_default env epsilon).

Definition contains (this : EllipseShape) (point : Point) : bool :=
  ltb (equationFor this point) one.

End EllipseShape.

(** What the specification says, computed in binary64. *)
Module Spec.

(** [((x - cx)/a)^2 + ((y - cy)/b)^2], the quotients taken first. *)
Definition ellipse_equation (e : EllipseShape) (p : Point) : number :=
  add
    (Math_pow2 (div (sub (x p) (x (EllipseShape.center e)))
                  (EllipseShape.a e)))
    (Math_pow2 (div (sub (y p) (y (EllipseShape.center e)))
                  (EllipseShape.b e))).

(** [|dist(a,p) + dist(p,b) - dist(a,b)|] *)
Definition segment_deviation (s : Segment) (p : Point) : number :=
  Math_abs (sub (add (Point.distanceTo (a s) p) (Point.distanceTo p (b s)))
              (Point.distanceTo (a s) (b s))).

End Spec.

(** The term of the shoelace sum for the side from [p] to [q]. *)
Definition shoelace_term (p q : Point) : number :=
  div (sub (mul (x p) (y q)) (mul (y p) (x q))) two.

(** A point with integer coordinates. *)
Definition point_Z (px py : Z) : Point := new_Point (of_Z px) (of_Z py).

(** A point whose coordinates are neither infinite nor [NaN]. *)
Definition finite_point (p : Point) : Prop :=
  is_finite (x p) = true /\ is_finite (y p) = true.

(** The shapes of the README's scenarios. *)
Definition triangle_0 : SegmentedShape :=
  TriangleShape.new (point_Z 0 0) (point_Z 10 10) (point_Z 20 5).

Definition rectangle_0 : SegmentedShape :=
  RectangleShape.new (point_Z 0 20) (point_Z 30 0).

(** The four points (2^27, 2^27), (2^28 + 1, 1), (2^27 + 1, 2^27), (0, 3). *)
Definition quadrilateral_0 : list Point :=
  [point_Z 134217728 134217728; point_Z 268435457 1;
   point_Z 134217729 134217728; point_Z 0 3].

End Binary64.

(** ** Tactics *)

(** Decides the comparisons of closed real terms that block a computation. *)
Ltac Rcompute :=
  repeat match goal with
    | |- context [Rlt_dec ?u ?v] => destruct (Rlt_dec u v); try lra
    | |- context [Rle_dec ?u ?v] => destruct (Rle_dec u v); try lra
    | |- context [Rgt_dec ?u ?v] => destruct (Rgt_dec u v); try lra
    | |- context [Req_dec_T ?u ?v] => destruct (Req_dec_T u v); try lra
    end.

(** Runs the loop of [contains] on closed points. *)
Ltac run_contains :=
  cbv [SegmentedShape.contains SegmentedShape.contains_divisors
       SegmentedShape.contains_run];
  repeat (progress
            (cbn;
             unfold SegmentedShape.loop_body, SegmentedShape.crossing,
               SegmentedShape.at_, Rgtb, Rltb, Num.div;
             cbn; Rcompute)).

(** Closes a goal of [same_value] between two computed numbers. *)
Ltac same_value_solve :=
  cbn; first [apply Binary64.same_zero | apply Binary64.same_eq].

(** ** Comparisons *)

Lemma Rltb_true (u v : R) : Rltb u v = true <-> u < v.
Proof. unfold Rltb; destruct (Rlt_dec u v); split; intros; auto; discriminate. Qed.

Lemma Rleb_true (u v : R) : Rleb u v = true <-> u <= v.
Proof. unfold Rleb; destruct (Rle_dec u v); split; intros; auto; discriminate. Qed.

Lemma Rgtb_true (u v : R) : Rgtb u v = true <-> u > v.
Proof. unfold Rgtb; destruct (Rgt_dec u v); split; intros; auto; discriminate. Qed.

Lemma Rltb_false (u v : R) : Rltb u v = false <-> v <= u.
Proof.
  unfold Rltb; destruct (Rlt_dec u v); split; intros;
    try discriminate; try reflexivity; lra.
Qed.

Lemma Rgtb_eq (u v w : R) : u = v -> Rgtb u w = Rgtb v w.
Proof. intros ->; reflexivity. Qed.

(** ** The scenarios of the README *)

Example triangle_0_contains :
  SegmentedShape.contains triangle_0 (new_Point 5 2) = true
  /\ SegmentedShape.contains triangle_0 (new_Point 5 6) = false.
Proof. split; run_contains; reflexivity. Qed.

(** A rectangle has two horizontal edges; the two divisions [contains] makes
    are for the vertical ones. *)
Example rectangle_0_contains :
  SegmentedShape.contains rectangle_0 (new_Point 10 10) = true
  /\ SegmentedShape.contains rectangle_0 (new_Point 10 21) = false
  /\ SegmentedShape.contains_divisors rectangle_0 (new_Point 10 10)
     = [0 - 20; 20 - 0].
Proof. repeat split; run_contains; reflexivity. Qed.

(** ** Ray casting: the divisions of [contains] *)

Section RayCasting.

Variables (pts : list Point) (point : Point).

(** The two comparisons with [point.y] differ only if the two ordinates
    do. *)
Lemma crossing_guard (i j : nat) :
  negb (Bool.eqb (Rgtb (y (SegmentedShape.at_ pts i)) (y point))
                 (Rgtb (y (SegmentedShape.at_ pts j)) (y point))) = true ->
  y (SegmentedShape.at_ pts j) - y (SegmentedShape.at_ pts i) <> 0.
Proof.
  intros Hguard Hzero.
  assert (Heq : y (SegmentedShape.at_ pts i) = y (SegmentedShape.at_ pts j))
    by lra.
  rewrite (Rgtb_eq _ _ _ Heq), Bool.eqb_reflx in Hguard.
  discriminate.
Qed.

Lemma crossing_divisors_nonzero (i j : nat) :
  Forall (fun d => d <> 0) (snd (SegmentedShape.crossing pts point i j)).
Proof.
  unfold SegmentedShape.crossing.
  destruct (negb _) eqn:Hguard; cbn.
  - constructor; [now apply crossing_guard | constructor].
  - constructor.
Qed.

(** An edge with equal ordinates at its ends is skipped: no crossing is
    counted and nothing is divided. *)
Lemma crossing_horizontal (i j : nat) :
  y (SegmentedShape.at_ pts i) = y (SegmentedShape.at_ pts j) ->
  SegmentedShape.crossing pts point i j = (false, []).
Proof.
  intros Heq. unfold SegmentedShape.crossing.
  now rewrite (Rgtb_eq _ _ _ Heq), Bool.eqb_reflx.
Qed.

Lemma loop_body_divisors (st : SegmentedShape.loop_state) (i : nat) :
  Forall (fun d => d <> 0) (snd st) ->
  Forall (fun d => d <> 0) (snd (SegmentedShape.loop_body pts point st i)).
Proof.
  destruct st as [[j hit] divisors]; cbn; intros Hst.
  pose proof (crossing_divisors_nonzero i j) as Hc.
  destruct (SegmentedShape.crossing pts point i j) as [cond ds]; cbn in *.
  apply Forall_app; split; assumption.
Qed.

Lemma loop_divisors (l : list nat) :
  forall st : SegmentedShape.loop_state,
    Forall (fun d => d <> 0) (snd st) ->
    Forall (fun d => d <> 0)
      (snd (fold_left (SegmentedShape.loop_body pts point) l st)).
Proof.
  induction l as [|i l IH]; intros st Hst; cbn.
  - assumption.
  - apply IH, loop_body_divisors, Hst.
Qed.

(** After an iteration [j] is the index it was made for. *)
Lemma loop_body_j (st : SegmentedShape.loop_state) (i : nat) :
  fst (fst (SegmentedShape.loop_body pts point st i)) = i.
Proof.
  destruct st as [[j hit] divisors]; cbn.
  now destruct (SegmentedShape.crossing pts point i j).
Qed.

End RayCasting.

Lemma contains_divisors_nonzero (s : SegmentedShape) (p : Point) :
  Forall (fun d => d <> 0) (SegmentedShape.contains_divisors s p).
Proof.
  unfold SegmentedShape.contains_divisors, SegmentedShape.contains_run.
  apply loop_divisors; cbn; constructor.
Qed.

Lemma never_divides_by_zero (s : SegmentedShape) (p : Point) :
  ~ Spec.divides_by_zero s p.
Proof.
  unfold Spec.divides_by_zero; intros Hin.
  pose proof (contains_divisors_nonzero s p) as Hall.
  rewrite Forall_forall in Hall.
  now apply (Hall 0 Hin).
Qed.

Lemma rectangle_0_horizontal : Spec.has_horizontal_edge rectangle_0.
Proof.
  exists (new_Segment (new_Point 0 20) (new_Point 30 20)); split.
  - cbn; left; reflexivity.
  - reflexivity.
Qed.

(** C1, as the specification states it: some shape with a horizontal edge
    and some test point make [contains] divide by zero.  It is false: the
    left operand of [&&] is false on every horizontal edge, and the division
    stands in the right operand. *)
Lemma C1_no_shape_divides_by_zero :
  ~ (exists (s : SegmentedShape) (p : Point),
        Spec.has_horizontal_edge s /\ Spec.divides_by_zero s p).
Proof.
  intros (s & p & _ & Hdiv).
  exact (never_divides_by_zero s p Hdiv).
Qed.

(** C1, amended: the division of [contains] is guarded by the left operand of
    [&&].  Every divisor an evaluation of [contains] meets is non-zero,
    whatever the shape and the test point, and an edge whose ends have the
    same [y] (a horizontal edge) is skipped without a division and without
    toggling [hit]. *)
Theorem C1_contains_division_guarded :
  (forall (s : SegmentedShape) (p : Point),
      Forall (fun d => d <> 0) (SegmentedShape.contains_divisors s p)
      /\ ~ Spec.divides_by_zero s p)
  /\ (forall (pts : list Point) (p : Point) (i j : nat),
         y (SegmentedShape.at_ pts i) = y (SegmentedShape.at_ pts j) ->
         SegmentedShape.crossing pts p i j = (false, [])).
Proof.
  split.
  - intros s p; split.
    + apply contains_divisors_nonzero.
    + apply never_divides_by_zero.
  - intros pts p i j. apply crossing_horizontal.
Qed.

(** The top edge of the README's rectangle. *)
Lemma C1_contains_division_guarded_witness :
  y (SegmentedShape.at_ (points rectangle_0) 1)
  = y (SegmentedShape.at_ (points rectangle_0) 0)
  /\ SegmentedShape.crossing (points rectangle_0) (new_Point 10 10) 1 0
     = (false, []).
Proof.
  split.
  - reflexivity.
  - apply (proj2 C1_contains_division_guarded). reflexivity.
Defined.

(** ** Perimeter and area of ellipses and circles *)

(** C2: the perimeter of a plain ellipse throws, also when [a = b]; the
    perimeter of a circle returns [2 * PI * radius]. *)
Theorem C2_perimeter_dispatch :
  (forall (center : Point) (a b : R),
      EllipseShape.perimeter (new_EllipseShape center a b)
      = Throw (Error "too hard to handle!"))
  /\ (forall (center : Point) (r : R),
         EllipseShape.perimeter (new_EllipseShape center r r)
         = Throw (Error "too hard to handle!"))
  /\ (forall (center : Point) (radius : R),
         EllipseShape.perimeter (new_CircleShape center radius)
         = Return (2 * PI * radius)).
Proof. repeat split. Qed.


(** ** The default tolerance and an explicit [epsilon] *)

(** C10: with an explicit [epsilon] the three boundary tests do not read the
    default tolerance: they agree under any two states of the library, and so
    before and after any [setEpsilon]. *)
Theorem C10_explicit_epsilon_noninterference :
  forall (env1 env2 : Env) (p : Point) (epsilon : R),
    (forall s : Segment,
        Segment.intersects env1 s p (Some epsilon)
        = Segment.intersects env2 s p (Some epsilon))
    /\ (forall s : SegmentedShape,
           SegmentedShape.intersects env1 s p (Some epsilon)
           = SegmentedShape.intersects env2 s p (Some epsilon))
    /\ (forall e : EllipseShape,
           EllipseShape.intersects env1 e p (Some epsilon)
           = EllipseShape.intersects env2 e p (Some epsilon))
    /\ (forall (value : R) (s : SegmentedShape),
           SegmentedShape.intersects (setEpsilon value env1) s p (Some epsilon)
           = SegmentedShape.intersects env1 s p (Some epsilon)).
Proof. intros; repeat split. Qed.

(** ** Distances *)

Lemma distanceTo_sym (p q : Point) :
  Point.distanceTo p q = Point.distanceTo q p.
Proof. unfold Point.distanceTo. f_equal. ring. Qed.

Lemma distanceTo_nonneg (p q : Point) : 0 <= Point.distanceTo p q.
Proof. apply sqrt_pos. Qed.

(** Along a horizontal line the distance is the difference of abscissas. *)
Lemma distanceTo_same_y (p q : Point) :
  y p = y q -> Point.distanceTo p q = Rabs (x p - x q).
Proof.
  intros Hy. unfold Point.distanceTo. rewrite Hy.
  replace ((x p - x q) ^ 2 + (y q - y q) ^ 2) with (Rsqr (x p - x q))
    by (unfold Rsqr; ring).
  apply sqrt_Rsqr_abs.
Qed.

Lemma distanceTo_same_x (p q : Point) :
  x p = x q -> Point.distanceTo p q = Rabs (y p - y q).
Proof.
  intros Hx. unfold Point.distanceTo. rewrite Hx.
  replace ((x q - x q) ^ 2 + (y p - y q) ^ 2) with (Rsqr (y p - y q))
    by (unfold Rsqr; ring).
  apply sqrt_Rsqr_abs.
Qed.

(** ** Boundary test of a segment *)

Lemma segment_intersects_spec (env : Env) (s : Segment) (p : Point)
  (epsilon : option R) :
  Segment.intersects env s p epsilon
  = Rltb (Spec.segment_deviation s p) (epsilon_or_default env epsilon).
Proof.
  unfold Segment.intersects, Spec.segment_deviation.
  now rewrite (distanceTo_sym (b s) p).
Qed.

(** C5: a segment's boundary test is true exactly when
    [|dist(a,p) + dist(p,b) - dist(a,b)| < epsilon]; the comparison is
    strict, so a deviation equal to [epsilon] is not contained.  When
    [epsilon] is omitted the default tolerance takes its place. *)
Theorem C5_segment_intersects_strict :
  forall (env : Env) (s : Segment) (p : Point),
    (forall epsilon : R,
        Segment.intersects env s p (Some epsilon) = true
        <-> Spec.segment_deviation s p < epsilon)
    /\ (forall epsilon : R,
           Spec.segment_deviation s p = epsilon ->
           Segment.intersects env s p (Some epsilon) = false)
    /\ (Segment.intersects env s p None = true
        <-> Spec.segment_deviation s p < DEFAULT_EPSILON env).
Proof.
  intros env s p. split; [|split].
  - intros epsilon. rewrite segment_intersects_spec. apply Rltb_true.
  - intros epsilon Hdev. rewrite segment_intersects_spec.
    apply Rltb_false. cbn. lra.
  - rewrite segment_intersects_spec. apply Rltb_true.
Qed.

(** The point (2,0) and the segment from (0,0) to (1,0): the deviation is 2. *)
Lemma deviation_beyond_end :
  Spec.segment_deviation
    (new_Segment (new_Point 0 0) (new_Point 1 0)) (new_Point 2 0) = 2.
Proof.
  unfold Spec.segment_deviation; cbn.
  rewrite !distanceTo_same_y by reflexivity; cbn.
  replace (0 - 2) with (- (2)) by ring.
  replace (2 - 1) with 1 by ring.
  replace (0 - 1) with (- (1)) by ring.
  rewrite !Rabs_Ropp, Rabs_R1, (Rabs_pos_eq 2) by lra.
  replace (2 + 1 - 1) with 2 by ring.
  apply Rabs_pos_eq; lra.
Qed.

Lemma C5_segment_intersects_strict_witness :
  Spec.segment_deviation
    (new_Segment (new_Point 0 0) (new_Point 1 0)) (new_Point 2 0) = 2
  /\ Segment.intersects initial_env
       (new_Segment (new_Point 0 0) (new_Point 1 0)) (new_Point 2 0) (Some 2)
     = false.
Proof.
  split.
  - exact deviation_beyond_end.
  - exact (proj1 (proj2 (C5_segment_intersects_strict initial_env _ _)) 2
             deviation_beyond_end).
Defined.

(** A call that omits [epsilon] does read the default: [setEpsilon] changes
    its result. *)
Example setEpsilon_changes_default :
  Segment.intersects initial_env
    (new_Segment (new_Point 0 0) (new_Point 1 0)) (new_Point 2 0) None = false
  /\ Segment.intersects (setEpsilon 3 initial_env)
       (new_Segment (new_Point 0 0) (new_Point 1 0)) (new_Point 2 0) None
     = true.
Proof.
  rewrite !segment_intersects_spec, deviation_beyond_end; cbn.
  split; [apply Rltb_false | apply Rltb_true]; lra.
Qed.

(** ** Boundary test of an ellipse *)

Lemma pow2_eq_0 (u : R) : u ^ 2 = 0 <-> u = 0.
Proof. split; intros H; nra. Qed.

(** Dividing the squares is squaring the quotient, also when the divisor is
    zero. *)
Lemma div_squares (u v : R) :
  Num.div (u ^ 2) (v ^ 2) = Spec.square (Num.div u v).
Proof.
  unfold Num.div.
  destruct (Req_dec_T v 0) as [Hv | Hv].
  - destruct (Req_dec_T (v ^ 2) 0) as [_ | Hv2];
      [| exfalso; apply Hv2; subst v; ring].
    destruct (Req_dec_T u 0) as [Hu | Hu].
    + destruct (Req_dec_T (u ^ 2) 0) as [_ | Hu2];
        [reflexivity | exfalso; apply Hu2; subst u; ring].
    + destruct (Req_dec_T (u ^ 2) 0) as [Hu2 | _];
        [exfalso; apply Hu, pow2_eq_0, Hu2 |].
      destruct (Rlt_dec 0 (u ^ 2)) as [_ | Hneg]; [| exfalso; nra].
      destruct (Rlt_dec 0 u); reflexivity.
  - destruct (Req_dec_T (v ^ 2) 0) as [Hv2 | _];
      [exfalso; apply Hv, pow2_eq_0, Hv2 |].
    cbn [Spec.square]. f_equal. now field.
Qed.

Lemma equationFor_spec (e : EllipseShape) (p : Point) :
  EllipseShape.equationFor e p = Spec.ellipse_equation e p.
Proof.
  unfold EllipseShape.equationFor, Spec.ellipse_equation.
  now rewrite !div_squares.
Qed.

Lemma div_nonzero (u v : R) : v <> 0 -> Num.div u v = Fin (u / v).
Proof. intros Hv. unfold Num.div. now destruct (Req_dec_T v 0). Qed.

Lemma equationFor_finite (e : EllipseShape) (p : Point) :
  EllipseShape.a e <> 0 -> EllipseShape.b e <> 0 ->
  EllipseShape.equationFor e p = Fin (Spec.ellipse_equation_R e p).
Proof.
  intros Ha Hb. rewrite equationFor_spec.
  unfold Spec.ellipse_equation, Spec.ellipse_equation_R.
  now rewrite !div_nonzero by assumption.
Qed.

(** With a zero semi-axis the equation is infinite or [NaN] and the test is
    false for every real [epsilon]. *)
Lemma ellipse_intersects_degenerate (env : Env) (e : EllipseShape)
  (p : Point) (epsilon : R) :
  EllipseShape.a e = 0 \/ EllipseShape.b e = 0 ->
  EllipseShape.intersects env e p (Some epsilon) = false.
Proof.
  intros Hab. unfold EllipseShape.intersects, EllipseShape.equationFor.
  assert (Hinf : forall u v, v = 0 ->
                   Num.div (u ^ 2) (v ^ 2) = Infinity
                   \/ Num.div (u ^ 2) (v ^ 2) = NaN).
  { intros u v ->. rewrite div_squares. unfold Num.div.
    destruct (Req_dec_T 0 0) as [_ | H0]; [| now exfalso].
    destruct (Req_dec_T u 0); [now right |].
    destruct (Rlt_dec 0 u); now left. }
  destruct Hab as [H0 | H0].
  - destruct (Hinf (x p - x (EllipseShape.center e)) _ H0) as [-> | ->];
      [| reflexivity].
    now destruct (Num.div _ (EllipseShape.b e ^ 2)).
  - destruct (Hinf (y p - y (EllipseShape.center e)) _ H0) as [-> | ->];
      now destruct (Num.div _ (EllipseShape.a e ^ 2)).
Qed.

(** ** The arrays of a polygon *)

Section ArrayMap.

Context {A B : Type} (f : A -> nat -> B).

Lemma map_from_length (l : list A) :
  forall k, List.length (map_from f k l) = List.length l.
Proof. induction l as [|v l IH]; intros k; cbn; [|rewrite IH]; reflexivity. Qed.

Lemma map_from_nth_error (l : list A) :
  forall k i,
    nth_error (map_from f k l) i
    = option_map (fun v => f v (k + i)%nat) (nth_error l i).
Proof.
  induction l as [|v l IH]; intros k [|i]; cbn; try reflexivity.
  - now rewrite Nat.add_0_r.
  - rewrite IH. now rewrite Nat.add_succ_r.
Qed.

End ArrayMap.

Lemma next_index_lt (pts : list Point) (i : nat) :
  (i < List.length pts)%nat ->
  (SegmentedShape.next_index pts i < List.length pts)%nat.
Proof.
  intros Hi. unfold SegmentedShape.next_index.
  destruct (Nat.eqb_spec i (List.length pts - 1)); lia.
Qed.

Lemma new_points (p1 p2 p3 : Point) (rest : list Point) :
  points (SegmentedShape.new p1 p2 p3 rest) = p1 :: p2 :: p3 :: rest.
Proof. reflexivity. Qed.

Lemma new_segments_length (p1 p2 p3 : Point) (rest : list Point) :
  List.length (segments (SegmentedShape.new p1 p2 p3 rest))
  = List.length (points (SegmentedShape.new p1 p2 p3 rest)).
Proof. unfold SegmentedShape.new; cbn [segments points]. apply map_from_length. Qed.

(** ** Indexed access *)

Lemma safeAt_throws {T : Type} (items : list T) (index : Z) :
  SegmentedShape.safeAt items index = Throw (RangeError "out of range access")
  <-> (index >= Z.of_nat (List.length items))%Z.
Proof.
  unfold SegmentedShape.safeAt.
  destruct (Z.geb_spec index (Z.of_nat (List.length items))) as [Hge | Hlt];
    split; intros Hthrow; try reflexivity; try lia; discriminate.
Qed.

Lemma safeAt_returns {T : Type} (items : list T) (index : Z) :
  (index < Z.of_nat (List.length items))%Z ->
  SegmentedShape.safeAt items index = Return (Array_get items index).
Proof.
  intros Hi. unfold SegmentedShape.safeAt.
  destruct (Z.geb_spec index (Z.of_nat (List.length items))); [lia | reflexivity].
Qed.

Lemma Array_get_in_range {T : Type} (items : list T) (index : Z) :
  (0 <= index < Z.of_nat (List.length items))%Z ->
  exists v : T,
    nth_error items (Z.to_nat index) = Some v /\ Array_get items index = Some v.
Proof.
  intros Hi. unfold Array_get.
  destruct (Z.ltb_spec index 0); [lia |].
  destruct (nth_error items (Z.to_nat index)) as [v |] eqn:Hnth.
  - now exists v.
  - apply nth_error_None in Hnth. lia.
Qed.

Lemma Array_get_negative {T : Type} (items : list T) (index : Z) :
  (index < 0)%Z -> Array_get items index = None.
Proof. intros Hi. unfold Array_get. now destruct (Z.ltb_spec index 0); [| lia]. Qed.

(** C6: [pointAt] and [segmentAt] throw the range error exactly when the
    index is at or beyond the number of points, which is also the number of
    segments; below it they return [items[index]] without throwing, which for
    an index from 0 on is the stored point or segment at that position.
    Only the upper bound is checked: a negative index is not rejected (the
    array read then gives [undefined]). *)
Theorem C6_indexed_access :
  forall (p1 p2 p3 : Point) (rest : list Point) (index : Z),
    let s := SegmentedShape.new p1 p2 p3 rest in
    let n := Z.of_nat (List.length (points s)) in
    Z.of_nat (List.length (segments s)) = n
    /\ (SegmentedShape.pointAt s index
        = Throw (RangeError "out of range access") <-> (index >= n)%Z)
    /\ (SegmentedShape.segmentAt s index
        = Throw (RangeError "out of range access") <-> (index >= n)%Z)
    /\ ((index < n)%Z ->
        SegmentedShape.pointAt s index = Return (Array_get (points s) index)
        /\ SegmentedShape.segmentAt s index
           = Return (Array_get (segments s) index))
    /\ ((0 <= index < n)%Z ->
        exists (pt : Point) (sg : Segment),
          nth_error (points s) (Z.to_nat index) = Some pt
          /\ nth_error (segments s) (Z.to_nat index) = Some sg
          /\ SegmentedShape.pointAt s index = Return (Some pt)
          /\ SegmentedShape.segmentAt s index = Return (Some sg))
    /\ ((index < 0)%Z ->
        SegmentedShape.pointAt s index = Return None
        /\ SegmentedShape.segmentAt s index = Return None).
Proof.
  intros p1 p2 p3 rest index s n.
  assert (Hlen : Z.of_nat (List.length (segments s)) = n).
  { subst n s. now rewrite new_segments_length. }
  unfold SegmentedShape.pointAt, SegmentedShape.segmentAt.
  split; [exact Hlen |].
  split; [apply safeAt_throws |].
  split; [rewrite <- Hlen; apply safeAt_throws |].
  split; [| split].
  - intros Hi. split; apply safeAt_returns; lia.
  - intros Hi.
    destruct (Array_get_in_range (points s) index) as (pt & Hpt & Hgp);
      [exact Hi |].
    destruct (Array_get_in_range (segments s) index) as (sg & Hsg & Hgs);
      [lia |].
    exists pt, sg. rewrite !safeAt_returns by lia.
    rewrite Hgp, Hgs. repeat split; assumption.
  - intros Hi. rewrite !safeAt_returns by lia.
    now rewrite !Array_get_negative by assumption.
Qed.

(** [bottomLeft], the point at index 3 of the README's rectangle. *)
Lemma C6_indexed_access_witness :
  SegmentedShape.pointAt rectangle_0 3 = Return (Some (new_Point 0 0))
  /\ SegmentedShape.pointAt rectangle_0 (-1) = Return None.
Proof.
  pose proof (C6_indexed_access (new_Point 0 20) (new_Point 30 20)
                (new_Point 30 0) [new_Point 0 0]) as H.
  split.
  - destruct (H 3%Z) as (_ & _ & _ & _ & Hin & _).
    destruct Hin as (pt & sg & Hpt & _ & Hat & _); [cbn; lia |].
    cbn in Hpt. injection Hpt as <-. exact Hat.
  - destruct (H (-1)%Z) as (_ & _ & _ & _ & _ & Hneg).
    destruct Hneg as [Hat _]; [lia |]. exact Hat.
Defined.

(** ** Perimeter *)

(** The fold over the points with the callback's [p2] and the sum over the
    segments [Array_map] builds with the same [p2] agree, from any index and
    accumulator on. *)
Lemma reduce_distance_segments (next : nat -> Point) (l : list Point) :
  forall (k : nat) (acc : R),
    reduce_from (fun acc p i => acc + Point.distanceTo p (next i)) k acc l
    = acc + Spec.sum_of_segment_lengths
              (map_from (fun p i => new_Segment p (next i)) k l).
Proof.
  unfold Spec.sum_of_segment_lengths.
  induction l as [|p l IH]; intros k acc; cbn.
  - ring.
  - rewrite IH. unfold Segment.length at 2; cbn. ring.
Qed.

Lemma fold_left_lengths (segs : list Segment) :
  forall acc : R,
    fold_left (fun acc sg => acc + Segment.length sg) segs acc
    = acc + Spec.sum_of_segment_lengths segs.
Proof.
  unfold Spec.sum_of_segment_lengths.
  induction segs as [|sg segs IH]; intros acc; cbn.
  - ring.
  - rewrite IH. ring.
Qed.

(** C8: the perimeter, a fold over the points, is the sum of the lengths of
    the segments the constructor derived from them, whichever way the
    segments are summed. *)
Theorem C8_perimeter_is_sum_of_lengths :
  forall (p1 p2 p3 : Point) (rest : list Point),
    let s := SegmentedShape.new p1 p2 p3 rest in
    SegmentedShape.perimeter s = Spec.sum_of_segment_lengths (segments s)
    /\ SegmentedShape.perimeter s
       = fold_left (fun acc sg => acc + Segment.length sg) (segments s) 0.
Proof.
  intros p1 p2 p3 rest s.
  assert (H : SegmentedShape.perimeter s
              = Spec.sum_of_segment_lengths (segments s)).
  { subst s. unfold SegmentedShape.perimeter, SegmentedShape.new.
    cbn [points segments]. unfold Array_reduce, Array_map.
    rewrite (reduce_distance_segments
               (fun i => SegmentedShape.at_ (p1 :: p2 :: p3 :: rest)
                           (SegmentedShape.next_index
                              (p1 :: p2 :: p3 :: rest) i))).
    ring. }
  split; [exact H |].
  rewrite fold_left_lengths, H. ring.
Qed.

(** The README's rectangle: 30 + 20 + 30 + 20. *)
Example rectangle_0_perimeter : SegmentedShape.perimeter rectangle_0 = 100.
Proof.
  unfold SegmentedShape.perimeter; cbn.
  unfold SegmentedShape.at_; cbn.
  rewrite (distanceTo_same_y (new_Point 0 20)) by reflexivity.
  rewrite (distanceTo_same_x (new_Point 30 20)) by reflexivity.
  rewrite (distanceTo_same_y (new_Point 30 0)) by reflexivity.
  rewrite (distanceTo_same_x (new_Point 0 0)) by reflexivity.
  cbn.
  replace (0 - 30) with (- (30)) by ring.
  replace (20 - 0) with 20 by ring.
  replace (30 - 0) with 30 by ring.
  replace (0 - 20) with (- (20)) by ring.
  rewrite !Rabs_Ropp, (Rabs_pos_eq 30), (Rabs_pos_eq 20) by lra.
  ring.
Qed.

(** ** The ellipse and the circle of the README *)

Example ellipse_0_contains :
  EllipseShape.contains (new_EllipseShape (new_Point 0 0) 1 20) (new_Point 0 0)
  = true
  /\ EllipseShape.contains (new_EllipseShape (new_Point 0 0) 1 20)
       (new_Point 10 10)
     = false.
Proof.
  unfold EllipseShape.contains.
  rewrite !equationFor_finite by (cbn; lra).
  unfold Spec.ellipse_equation_R; cbn.
  split; [apply Rltb_true | apply Rltb_false]; lra.
Qed.

Example circle_0_perimeter :
  EllipseShape.perimeter (new_CircleShape (new_Point 0 0) 10)
  = Return (2 * PI * 10)
  /\ EllipseShape.area (new_CircleShape (new_Point 0 0) 10)
     = EllipseShape.area (new_EllipseShape (new_Point 0 0) 10 10).
Proof. split; reflexivity. Qed.

(** ** The tolerance of the boundary tests *)

Lemma segment_deviation_nonneg (s : Segment) (p : Point) :
  0 <= Spec.segment_deviation s p.
Proof. unfold Spec.segment_deviation. apply Rabs_pos. Qed.

Lemma polygon_intersects_exists (env : Env) (s : SegmentedShape) (p : Point)
  (epsilon : R) :
  SegmentedShape.intersects env s p (Some epsilon) = true
  <-> exists sg : Segment,
      In sg (segments s) /\ Spec.segment_deviation sg p < epsilon.
Proof.
  unfold SegmentedShape.intersects; cbn [epsilon_or_default].
  rewrite existsb_exists. split; intros (sg & Hin & Hsg); exists sg;
    (split; [exact Hin |]).
  - now rewrite segment_intersects_spec, Rltb_true in Hsg.
  - now rewrite segment_intersects_spec, Rltb_true.
Qed.

Lemma not_true_false (c : bool) : c <> true -> c = false.
Proof. now destruct c. Qed.

Lemma leb_abs_negative (n : number) (epsilon : R) :
  epsilon < 0 -> Num.leb (Num.abs n) (Fin epsilon) = false.
Proof.
  intros Heps. destruct n as [u | | |]; cbn; try reflexivity.
  apply not_true_false. rewrite Rleb_true.
  pose proof (Rabs_pos u). lra.
Qed.

Lemma leb_fin_mono (n : number) (e1 e2 : R) :
  e1 <= e2 -> Num.leb n (Fin e1) = true -> Num.leb n (Fin e2) = true.
Proof.
  intros Hle. destruct n as [u | | |]; cbn; try discriminate; try reflexivity.
  rewrite !Rleb_true. lra.
Qed.

(** X5: a tolerance that is not positive switches the boundary tests of
    segments and polygons off: they are false for every point.  The test of
    an ellipse, whose comparison is not strict, is false for every point
    only below 0. *)
Theorem X5_nonpositive_epsilon :
  forall (env : Env) (p : Point) (epsilon : R),
    (epsilon <= 0 ->
     (forall s : Segment, Segment.intersects env s p (Some epsilon) = false)
     /\ (forall s : SegmentedShape,
            SegmentedShape.intersects env s p (Some epsilon) = false))
    /\ (epsilon < 0 ->
        forall e : EllipseShape,
          EllipseShape.intersects env e p (Some epsilon) = false).
Proof.
  intros env p epsilon. split.
  - intros Heps. split.
    + intros s. rewrite segment_intersects_spec. apply Rltb_false; cbn.
      pose proof (segment_deviation_nonneg s p). lra.
    + intros s. apply not_true_false. rewrite polygon_intersects_exists.
      intros (sg & _ & Hsg).
      pose proof (segment_deviation_nonneg sg p). lra.
  - intros Heps e. unfold EllipseShape.intersects; cbn [epsilon_or_default].
    now apply leb_abs_negative.
Qed.

(** The README's triangle and its vertex (0,0), with tolerance 0; the unit
    circle and the point (1,0) of it, with tolerance -1. *)
Lemma X5_nonpositive_epsilon_witness :
  SegmentedShape.intersects initial_env triangle_0 (new_Point 0 0) (Some 0)
  = false
  /\ EllipseShape.intersects initial_env (new_CircleShape (new_Point 0 0) 1)
       (new_Point 1 0) (Some (-1))
     = false.
Proof.
  split.
  - refine (proj2 (proj1 (X5_nonpositive_epsilon initial_env (new_Point 0 0) 0)
                     _) triangle_0).
    lra.
  - refine (proj2 (X5_nonpositive_epsilon initial_env (new_Point 1 0) (-1))
              _ (new_CircleShape (new_Point 0 0) 1)).
    lra.
Defined.

(** X7: the three boundary tests grow with the tolerance: a point accepted
    with some [epsilon] is accepted with every larger one. *)
Theorem X7_intersects_monotone :
  forall (env : Env) (p : Point) (e1 e2 : R),
    e1 <= e2 ->
    (forall s : Segment,
        Segment.intersects env s p (Some e1) = true ->
        Segment.intersects env s p (Some e2) = true)
    /\ (forall s : SegmentedShape,
           SegmentedShape.intersects env s p (Some e1) = true ->
           SegmentedShape.intersects env s p (Some e2) = true)
    /\ (forall e : EllipseShape,
           EllipseShape.intersects env e p (Some e1) = true ->
           EllipseShape.intersects env e p (Some e2) = true).
Proof.
  intros env p e1 e2 Hle. split; [| split].
  - intros s. rewrite !segment_intersects_spec, !Rltb_true; cbn. lra.
  - intros s. rewrite !polygon_intersects_exists.
    intros (sg & Hin & Hsg). exists sg. split; [exact Hin | lra].
  - intros e. unfold EllipseShape.intersects; cbn [epsilon_or_default].
    now apply leb_fin_mono.
Qed.

(** The point (2,0), 2 away from the segment from (0,0) to (1,0): accepted
    with tolerance 3, hence with 4. *)
Lemma X7_intersects_monotone_witness :
  Segment.intersects initial_env
    (new_Segment (new_Point 0 0) (new_Point 1 0)) (new_Point 2 0) (Some 4)
  = true.
Proof.
  assert (Hle : 3 <= 4) by lra.
  refine (proj1 (X7_intersects_monotone initial_env (new_Point 2 0) 3 4 Hle)
            (new_Segment (new_Point 0 0) (new_Point 1 0)) _).
  rewrite segment_intersects_spec, deviation_beyond_end.
  apply Rltb_true. cbn. lra.
Defined.

(** X8: after [setEpsilon(value)] a boundary test called without [epsilon]
    is the test called with [epsilon = value]; before any [setEpsilon] it is
    the test with 0.01; of two [setEpsilon] in a row the last one counts. *)
Theorem X8_setEpsilon_default :
  forall (env : Env) (value : R) (p : Point),
    (forall s : Segment,
        Segment.intersects (setEpsilon value env) s p None
        = Segment.intersects env s p (Some value))
    /\ (forall s : SegmentedShape,
           SegmentedShape.intersects (setEpsilon value env) s p None
           = SegmentedShape.intersects env s p (Some value))
    /\ (forall e : EllipseShape,
           EllipseShape.intersects (setEpsilon value env) e p None
           = EllipseShape.intersects env e p (Some value))
    /\ (forall s : SegmentedShape,
           SegmentedShape.intersects initial_env s p None
           = SegmentedShape.intersects env s p (Some (1 / 100)))
    /\ (forall other : R,
           setEpsilon value (setEpsilon other env) = setEpsilon value env).
Proof. intros; repeat split. Qed.

(** X12: the accessors of a rectangle give back the two corners it was built
    from and the two computed ones, never throw, and [width] and [height]
    are the differences of the coordinates of the corners, of either sign. *)
Theorem X12_rectangle_accessors :
  forall topLeft bottomRight : Point,
    let r := RectangleShape.new topLeft bottomRight in
    RectangleShape.topLeft r = Return (Some topLeft)
    /\ RectangleShape.topRight r
       = Return (Some (new_Point (x bottomRight) (y topLeft)))
    /\ RectangleShape.bottomRight r = Return (Some bottomRight)
    /\ RectangleShape.bottomLeft r
       = Return (Some (new_Point (x topLeft) (y bottomRight)))
    /\ RectangleShape.width r = Value (x bottomRight - x topLeft)
    /\ RectangleShape.height r = Value (y topLeft - y bottomRight).
Proof. intros topLeft bottomRight r. repeat split. Qed.

Lemma ellipse_contains_degenerate (e : EllipseShape) (p : Point) :
  EllipseShape.a e = 0 \/ EllipseShape.b e = 0 ->
  EllipseShape.contains e p = false.
Proof.
  intros Hab. unfold EllipseShape.contains, EllipseShape.equationFor.
  assert (Hinf : forall u v, v = 0 ->
                   Num.div (u ^ 2) (v ^ 2) = Infinity
                   \/ Num.div (u ^ 2) (v ^ 2) = NaN).
  { intros u v ->. rewrite div_squares. unfold Num.div.
    destruct (Req_dec_T 0 0) as [_ | H0]; [| now exfalso].
    destruct (Req_dec_T u 0); [now right |].
    destruct (Rlt_dec 0 u); now left. }
  destruct Hab as [H0 | H0].
  - destruct (Hinf (x p - x (EllipseShape.center e)) _ H0) as [-> | ->];
      [| reflexivity].
    now destruct (Num.div _ (EllipseShape.b e ^ 2)).
  - destruct (Hinf (y p - y (EllipseShape.center e)) _ H0) as [-> | ->];
      now destruct (Num.div _ (EllipseShape.a e ^ 2)).
Qed.

(** X19: an ellipse with a semi-axis equal to 0 has no inside and no
    boundary: the division by zero gives [Infinity] or [NaN], and [contains]
    and the boundary test are false for every point and every tolerance. *)
Theorem X19_ellipse_zero_axis :
  forall (env : Env) (e : EllipseShape) (p : Point) (epsilon : R),
    EllipseShape.a e = 0 \/ EllipseShape.b e = 0 ->
    EllipseShape.contains e p = false
    /\ EllipseShape.intersects env e p (Some epsilon) = false.
Proof.
  intros env e p epsilon Hab. split.
  - now apply ellipse_contains_degenerate.
  - now apply ellipse_intersects_degenerate.
Qed.

(** A circle of radius 0 does not contain its centre. *)
Lemma X19_ellipse_zero_axis_witness :
  EllipseShape.contains (new_CircleShape (new_Point 0 0) 0) (new_Point 0 0)
  = false.
Proof.
  refine (proj1 (X19_ellipse_zero_axis initial_env
                   (new_CircleShape (new_Point 0 0) 0) (new_Point 0 0) 1 _)).
  left. reflexivity.
Defined.

Lemma equationFor_opp (center : Point) (a b : R) (p : Point) :
  EllipseShape.equationFor (new_EllipseShape center (- a) b) p
  = EllipseShape.equationFor (new_EllipseShape center a b) p
  /\ EllipseShape.equationFor (new_EllipseShape center a (- b)) p
     = EllipseShape.equationFor (new_EllipseShape center a b) p.
Proof.
  unfold EllipseShape.equationFor; cbn.
  split.
  - now replace (- a * (- a * 1)) with (a * (a * 1)) by ring.
  - now replace (- b * (- b * 1)) with (b * (b * 1)) by ring.
Qed.

(** X20: [contains] and the boundary test of an ellipse see the semi-axes
    through their squares only: changing the sign of [a] or of [b] changes
    neither (the area changes its sign). *)
Theorem X20_ellipse_axis_sign :
  forall (env : Env) (center : Point) (a b : R) (p : Point)
         (epsilon : option R),
    EllipseShape.contains (new_EllipseShape center (- a) b) p
    = EllipseShape.contains (new_EllipseShape center a b) p
    /\ EllipseShape.contains (new_EllipseShape center a (- b)) p
       = EllipseShape.contains (new_EllipseShape center a b) p
    /\ EllipseShape.intersects env (new_EllipseShape center (- a) b) p epsilon
       = EllipseShape.intersects env (new_EllipseShape center a b) p epsilon
    /\ EllipseShape.intersects env (new_EllipseShape center a (- b)) p epsilon
       = EllipseShape.intersects env (new_EllipseShape center a b) p epsilon
    /\ EllipseShape.area (new_EllipseShape center (- a) b)
       = - EllipseShape.area (new_EllipseShape center a b).
Proof.
  intros env center a b p epsilon.
  destruct (equationFor_opp center a b p) as [Ha Hb].
  unfold EllipseShape.contains, EllipseShape.intersects.
  rewrite Ha, Hb. repeat split.
  unfold EllipseShape.area; cbn. ring.
Qed.

(** ** Binary64: the README's values *)

Example binary64_literals :
  Binary64.of_Z 0 = Binary64.zero
  /\ Binary64.of_Z 1 = Binary64.one
  /\ Binary64.of_Z 2 = Binary64.two
  /\ Binary64.ratio 1 100 = S754_finite false 5764607523034235 (-59)
  /\ Binary64.ratio 3141592653589793 1000000000000000 = Binary64.Math_PI.
Proof. repeat split; vm_compute; reflexivity. Qed.

Example binary64_triangle_0 :
  Binary64.SegmentedShape.area Binary64.triangle_0 = Binary64.of_Z 75
  /\ Binary64.SegmentedShape.contains Binary64.triangle_0
       (Binary64.point_Z 5 2) = true
  /\ Binary64.SegmentedShape.contains Binary64.triangle_0
       (Binary64.point_Z 5 6) = false
  /\ Binary64.SegmentedShape.intersects Binary64.initial_env
       Binary64.triangle_0 (Binary64.point_Z 5 5) None = true
  /\ Binary64.SegmentedShape.intersects Binary64.initial_env
       Binary64.triangle_0 (Binary64.point_Z 5 2) None = false.
Proof. repeat split; vm_compute; reflexivity. Qed.

Example binary64_rectangle_0 :
  Binary64.SegmentedShape.area Binary64.rectangle_0 = Binary64.of_Z 600
  /\ Binary64.SegmentedShape.perimeter Binary64.rectangle_0
     = Binary64.of_Z 100
  /\ Binary64.SegmentedShape.contains Binary64.rectangle_0
       (Binary64.point_Z 10 10) = true
  /\ Binary64.SegmentedShape.contains Binary64.rectangle_0
       (Binary64.point_Z 10 21) = false.
Proof. repeat split; vm_compute; reflexivity. Qed.

Example binary64_readme_tests :
  let segment :=
    Binary64.new_Segment (Binary64.point_Z 1 1) (Binary64.point_Z 5 5) in
  let square := Binary64.SquareShape.new (Binary64.point_Z 0 10)
                  (Binary64.of_Z 10) in
  let ellipse := Binary64.new_EllipseShape (Binary64.point_Z 0 0)
                   (Binary64.of_Z 1) (Binary64.of_Z 20) in
  let circle := Binary64.new_CircleShape (Binary64.point_Z 0 0)
                  (Binary64.of_Z 10) in
  Binary64.Segment.intersects Binary64.initial_env segment
    (Binary64.point_Z 3 3) None = true
  /\ Binary64.Segment.intersects Binary64.initial_env segment
       (Binary64.point_Z 3 4) None = false
  /\ Binary64.SegmentedShape.area square = Binary64.of_Z 100
  /\ Binary64.SegmentedShape.perimeter square = Binary64.of_Z 40
  /\ Binary64.SegmentedShape.intersects Binary64.initial_env square
       (Binary64.point_Z 5 10) None = true
  /\ Binary64.SegmentedShape.intersects Binary64.initial_env square
       (Binary64.point_Z 5 5) None = false
  /\ Binary64.EllipseShape.contains ellipse (Binary64.point_Z 0 0) = true
  /\ Binary64.EllipseShape.contains ellipse (Binary64.point_Z 10 10) = false
  /\ Binary64.EllipseShape.contains circle (Binary64.point_Z 1 1) = true
  /\ Binary64.EllipseShape.contains circle (Binary64.point_Z 10 10) = false.
Proof. cbv zeta. repeat split; vm_compute; reflexivity. Qed.

(** ** Binary64: signs and symmetries of the arithmetic *)

Lemma same_value_sym (u v : Binary64.number) :
  Binary64.same_value u v -> Binary64.same_value v u.
Proof. intros H; destruct H; constructor. Qed.

Lemma same_value_trans (u v w : Binary64.number) :
  Binary64.same_value u v -> Binary64.same_value v w ->
  Binary64.same_value u w.
Proof.
  intros H1 H2. destruct H1; [exact H2 |].
  inversion H2; subst; constructor.
Qed.

Lemma opp_same_value (u v : Binary64.number) :
  Binary64.same_value u v -> Binary64.same_value (SFopp u) (SFopp v).
Proof. intros H; destruct H; same_value_solve. Qed.

Lemma abs_same_value (u v : Binary64.number) :
  Binary64.same_value u v -> Binary64.Math_abs u = Binary64.Math_abs v.
Proof. intros H; destruct H; reflexivity. Qed.

Lemma abs_opp (u : Binary64.number) :
  Binary64.Math_abs (SFopp u) = Binary64.Math_abs u.
Proof. now destruct u. Qed.

(** Rounding does not look at the sign. *)
Lemma binary_round_aux_opp (s : bool) (m e : Z) (l : location) :
  binary_round_aux Binary64.prec Binary64.emax (negb s) m e l
  = SFopp (binary_round_aux Binary64.prec Binary64.emax s m e l).
Proof.
  unfold binary_round_aux.
  destruct (shr_fexp _ _ m e l) as [mrs' e'].
  destruct (shr_fexp _ _ _ e' loc_Exact) as [mrs'' e''].
  destruct (shr_m mrs''); try reflexivity.
  now destruct (Z.leb e'' _).
Qed.

(** A rounded result carries the sign it was given, unless it is [NaN]. *)
Lemma binary_round_aux_signbit (s : bool) (m e : Z) (l : location) :
  binary_round_aux Binary64.prec Binary64.emax s m e l = S754_nan
  \/ Binary64.signbit (binary_round_aux Binary64.prec Binary64.emax s m e l)
     = s.
Proof.
  unfold binary_round_aux.
  destruct (shr_fexp _ _ m e l) as [mrs' e'].
  destruct (shr_fexp _ _ _ e' loc_Exact) as [mrs'' e''].
  destruct (shr_m mrs''); [now right | | now left].
  destruct (Z.leb e'' _); now right.
Qed.

Lemma binary_round_opp (s : bool) (m : positive) (e : Z) :
  binary_round Binary64.prec Binary64.emax (negb s) m e
  = SFopp (binary_round Binary64.prec Binary64.emax s m e).
Proof.
  unfold binary_round.
  destruct (shl_align m e _) as [mz ez].
  apply binary_round_aux_opp.
Qed.

Lemma binary_normalize_opp (z e : Z) :
  Binary64.same_value
    (SFopp (binary_normalize Binary64.prec Binary64.emax z e false))
    (binary_normalize Binary64.prec Binary64.emax (- z) e false).
Proof.
  destruct z as [|m|m]; cbn [binary_normalize Z.opp].
  - apply Binary64.same_zero.
  - rewrite <- (binary_round_opp false). apply Binary64.same_eq.
  - rewrite <- (binary_round_opp true). apply Binary64.same_eq.
Qed.

Lemma mul_comm (u v : Binary64.number) : Binary64.mul u v = Binary64.mul v u.
Proof.
  destruct u as [s1 | s1 | | s1 m1 e1], v as [s2 | s2 | | s2 m2 e2]; cbn;
    try reflexivity; try now rewrite Bool.xorb_comm.
  now rewrite Bool.xorb_comm, Pos.mul_comm, Z.add_comm.
Qed.

Lemma add_comm (u v : Binary64.number) : Binary64.add u v = Binary64.add v u.
Proof.
  destruct u as [s1 | s1 | | s1 m1 e1], v as [s2 | s2 | | s2 m2 e2];
    try reflexivity; try (now destruct s1, s2).
  unfold Binary64.add, SFadd. now rewrite Z.min_comm, Z.add_comm.
Qed.

Lemma cond_Zopp_negb (s : bool) (z : Z) :
  cond_Zopp (negb s) z = (- cond_Zopp s z)%Z.
Proof. destruct s; cbn; [now rewrite Z.opp_involutive | reflexivity]. Qed.

Lemma add_opp (u v : Binary64.number) :
  Binary64.same_value (SFopp (Binary64.add u v))
    (Binary64.add (SFopp u) (SFopp v)).
Proof.
  destruct u as [s1 | s1 | | s1 m1 e1], v as [s2 | s2 | | s2 m2 e2];
    try (destruct s1, s2; same_value_solve); try same_value_solve.
  unfold Binary64.add, SFadd. cbn [SFopp].
  rewrite !cond_Zopp_negb, <- Z.opp_add_distr.
  apply binary_normalize_opp.
Qed.

(** [v - u] is the opposite of [u - v]. *)
Lemma sub_anti (u v : Binary64.number) :
  Binary64.same_value (SFopp (Binary64.sub u v)) (Binary64.sub v u).
Proof.
  destruct u as [s1 | s1 | | s1 m1 e1], v as [s2 | s2 | | s2 m2 e2];
    try (destruct s1, s2; same_value_solve); try same_value_solve.
  unfold Binary64.sub, SFsub.
  rewrite (Z.min_comm e2 e1).
  replace (cond_Zopp s2 (Z.pos (fst (shl_align m2 e2 (Z.min e1 e2))))
           - cond_Zopp s1 (Z.pos (fst (shl_align m1 e1 (Z.min e1 e2)))))%Z
    with (- (cond_Zopp s1 (Z.pos (fst (shl_align m1 e1 (Z.min e1 e2))))
             - cond_Zopp s2 (Z.pos (fst (shl_align m2 e2 (Z.min e1 e2))))))%Z
    by lia.
  apply binary_normalize_opp.
Qed.

Lemma add_same_value (u u' v v' : Binary64.number) :
  Binary64.same_value u u' -> Binary64.same_value v v' ->
  Binary64.same_value (Binary64.add u v) (Binary64.add u' v').
Proof.
  intros Hu Hv. destruct Hu as [u | s s'], Hv as [v | t t'].
  - apply Binary64.same_eq.
  - destruct u as [s1 | s1 | | s1 m1 e1]; try apply Binary64.same_eq.
    destruct s1, t, t'; same_value_solve.
  - destruct v as [s1 | s1 | | s1 m1 e1]; try apply Binary64.same_eq.
    destruct s1, s, s'; same_value_solve.
  - destruct s, s', t, t'; same_value_solve.
Qed.

Lemma add_zero_l (u : Binary64.number) :
  Binary64.same_value (Binary64.add Binary64.zero u) u.
Proof.
  destruct u as [s | s | | s m e]; try apply Binary64.same_eq.
  destruct s; same_value_solve.
Qed.

Lemma div_opp_l (u v : Binary64.number) :
  Binary64.div (SFopp u) v = SFopp (Binary64.div u v).
Proof.
  destruct u as [s1 | s1 | | s1 m1 e1], v as [s2 | s2 | | s2 m2 e2];
    try reflexivity; try (now destruct s1, s2).
  unfold Binary64.div, SFdiv. cbn [SFopp].
  destruct (SFdiv_core_binary _ _ _ _ _ _) as [[mz ez] lz].
  replace (xorb (negb s1) s2) with (negb (xorb s1 s2)) by now destruct s1, s2.
  apply binary_round_aux_opp.
Qed.

Lemma div_same_value_l (u u' v : Binary64.number) :
  Binary64.same_value u u' ->
  Binary64.same_value (Binary64.div u v) (Binary64.div u' v).
Proof.
  intros Hu. destruct Hu as [u | s s']; [apply Binary64.same_eq |].
  destruct v; same_value_solve.
Qed.

Lemma add_opposites (u u' v v' : Binary64.number) :
  Binary64.same_value (SFopp u) u' -> Binary64.same_value (SFopp v) v' ->
  Binary64.same_value (SFopp (Binary64.add u v)) (Binary64.add u' v').
Proof.
  intros Hu Hv.
  eapply same_value_trans; [apply add_opp |].
  now apply add_same_value.
Qed.

(** The sign of a product is the exclusive or of the signs. *)
Lemma mul_signbit (u v : Binary64.number) :
  Binary64.mul u v = S754_nan
  \/ Binary64.signbit (Binary64.mul u v)
     = xorb (Binary64.signbit u) (Binary64.signbit v).
Proof.
  destruct u as [s1 | s1 | | s1 m1 e1], v as [s2 | s2 | | s2 m2 e2];
    try (now left); try (now right).
  apply binary_round_aux_signbit.
Qed.

(** A number that is not [NaN] and has a clear sign bit is at least 0. *)
Lemma leb_zero_of_signbit (u : Binary64.number) :
  Binary64.signbit u = false ->
  u = S754_nan \/ Binary64.leb Binary64.zero u = true.
Proof.
  destruct u as [s | s | | s m e]; cbn; intros Hs; subst;
    try (now left); now right.
Qed.


(** ** Binary64: distances *)

Lemma pow2_opp (w : Binary64.number) :
  Binary64.Math_pow2 (SFopp w) = Binary64.Math_pow2 w.
Proof.
  destruct w as [s | s | | s m e]; try reflexivity; now destruct s.
Qed.

Lemma pow2_same_value (w w' : Binary64.number) :
  Binary64.same_value w w' ->
  Binary64.Math_pow2 w = Binary64.Math_pow2 w'.
Proof. intros H; destruct H as [w | s s']; [reflexivity | now destruct s, s']. Qed.

(** The square of a difference does not depend on the order of the terms. *)
Lemma pow2_sub_swap (u v : Binary64.number) :
  Binary64.Math_pow2 (Binary64.sub u v)
  = Binary64.Math_pow2 (Binary64.sub v u).
Proof.
  rewrite <- (pow2_opp (Binary64.sub u v)).
  apply pow2_same_value, sub_anti.
Qed.

Lemma distanceTo64_sym (p q : Binary64.Point) :
  Binary64.Point.distanceTo p q = Binary64.Point.distanceTo q p.
Proof.
  unfold Binary64.Point.distanceTo.
  now rewrite (pow2_sub_swap (Binary64.x p)), (pow2_sub_swap (Binary64.y p)).
Qed.

Lemma pow2_signbit (w : Binary64.number) :
  Binary64.signbit (Binary64.Math_pow2 w) = false.
Proof.
  unfold Binary64.Math_pow2.
  destruct (mul_signbit w w) as [-> | ->]; [reflexivity |].
  apply Bool.xorb_nilpotent.
Qed.

Lemma binary_round_signbit (s : bool) (m : positive) (e : Z) :
  binary_round Binary64.prec Binary64.emax s m e = S754_nan
  \/ Binary64.signbit (binary_round Binary64.prec Binary64.emax s m e) = s.
Proof.
  unfold binary_round.
  destruct (shl_align m e _) as [mz ez].
  apply binary_round_aux_signbit.
Qed.

Lemma add_signbit_false (u v : Binary64.number) :
  Binary64.signbit u = false -> Binary64.signbit v = false ->
  Binary64.signbit (Binary64.add u v) = false.
Proof.
  destruct u as [s1 | s1 | | s1 m1 e1], v as [s2 | s2 | | s2 m2 e2];
    cbn [Binary64.signbit]; intros H1 H2; subst; try reflexivity.
  unfold Binary64.add, SFadd. cbn [cond_Zopp Z.add binary_normalize].
  destruct (binary_round_signbit false
              (fst (shl_align m1 e1 (Z.min e1 e2))
               + fst (shl_align m2 e2 (Z.min e1 e2))) (Z.min e1 e2))
    as [-> | ->]; reflexivity.
Qed.

Lemma sqrt_signbit (u : Binary64.number) :
  Binary64.signbit u = false ->
  Binary64.signbit (Binary64.Math_sqrt u) = false.
Proof.
  destruct u as [s | s | | s m e]; cbn [Binary64.signbit]; intros Hs; subst;
    try reflexivity.
  unfold Binary64.Math_sqrt, SFsqrt.
  destruct (SFsqrt_core_binary _ _ _ _) as [[mz ez] lz].
  destruct (binary_round_aux_signbit false mz ez lz) as [-> | ->];
    reflexivity.
Qed.

Lemma distanceTo64_signbit (p q : Binary64.Point) :
  Binary64.signbit (Binary64.Point.distanceTo p q) = false.
Proof.
  unfold Binary64.Point.distanceTo.
  apply sqrt_signbit, add_signbit_false; apply pow2_signbit.
Qed.

Lemma sub_diag (u : Binary64.number) :
  Binary64.is_finite u = true -> Binary64.sub u u = Binary64.zero.
Proof.
  destruct u as [s | s | | s m e]; cbn [Binary64.is_finite]; intros Hf;
    try discriminate.
  - now destruct s.
  - unfold Binary64.sub, SFsub. now rewrite Z.sub_diag.
Qed.

Lemma distanceTo64_self (p : Binary64.Point) :
  Binary64.finite_point p -> Binary64.Point.distanceTo p p = Binary64.zero.
Proof.
  intros [Hx Hy]. unfold Binary64.Point.distanceTo.
  now rewrite !sub_diag by assumption.
Qed.

(** Adding [0] changes no number with a clear sign bit. *)
Lemma add_zero_l_exact (u : Binary64.number) :
  Binary64.signbit u = false -> Binary64.add Binary64.zero u = u.
Proof. destruct u as [s | s | | s m e]; cbn; intros Hs; now subst. Qed.

Lemma add_zero_r_exact (u : Binary64.number) :
  Binary64.signbit u = false -> Binary64.add u Binary64.zero = u.
Proof. intros Hs. rewrite add_comm. now apply add_zero_l_exact. Qed.

(** ** Binary64: the area is never negative *)


(** The shoelace products of the triangle (1e200, 1e200), (2e200, 3e200),
    (0, 0) overflow: the area is [NaN]. *)
Example polygon_area_nan :
  Binary64.SegmentedShape.area
    (Binary64.TriangleShape.new
       (Binary64.new_Point (Binary64.of_Z (10 ^ 200))
          (Binary64.of_Z (10 ^ 200)))
       (Binary64.new_Point (Binary64.of_Z (2 * 10 ^ 200))
          (Binary64.of_Z (3 * 10 ^ 200)))
       (Binary64.point_Z 0 0))
  = S754_nan.
Proof. vm_compute. reflexivity. Qed.

(** In binary64 too the area of the ellipse with semi-axes -1 and 1 is
    negative. *)
Example ellipse_area_negative :
  Binary64.ltb
    (Binary64.EllipseShape.area
       (Binary64.new_EllipseShape (Binary64.point_Z 0 0)
          (Binary64.of_Z (-1)) (Binary64.of_Z 1)))
    Binary64.zero
  = true.
Proof. vm_compute. reflexivity. Qed.



(** ** Binary64: the boundary test of an ellipse *)

Lemma eqb_leb (u v : Binary64.number) :
  Binary64.eqb u v = true -> Binary64.leb u v = true.
Proof.
  unfold Binary64.eqb, Binary64.leb, SFeqb, SFleb.
  now destruct (SFcompare u v) as [[| |] |].
Qed.

Lemma eqb_not_ltb (u v : Binary64.number) :
  Binary64.eqb u v = true -> Binary64.ltb u v = false.
Proof.
  unfold Binary64.eqb, Binary64.ltb, SFeqb, SFltb.
  now destruct (SFcompare u v) as [[| |] |].
Qed.

(** C4, as the specification states it, fails by rounding.  For the ellipse
    with centre (0,0) and semi-axes 3 and 1, the point (5,0) and
    [epsilon = 1.7777777777777777], the program, which divides the squares,
    returns true; the formula of the claim, which squares the quotients,
    gives a deviation above [epsilon], computed in binary64 and computed
    exactly (16/9, while [epsilon] is 8006399337547548 / 2^52). *)
Lemma C4_rounding_counterexample :
  let e := Binary64.new_EllipseShape (Binary64.point_Z 0 0)
             (Binary64.of_Z 3) (Binary64.of_Z 1) in
  let p := Binary64.point_Z 5 0 in
  let epsilon := Binary64.ratio 17777777777777777 10000000000000000 in
  Binary64.EllipseShape.intersects Binary64.initial_env e p (Some epsilon)
  = true
  /\ Binary64.leb
       (Binary64.Math_abs
          (Binary64.sub (Binary64.Spec.ellipse_equation e p) Binary64.one))
       epsilon
     = false
  /\ epsilon = S754_finite false 8006399337547548 (-52)
  /\ ~ (Rabs (((5 - 0) / 3) ^ 2 + ((0 - 0) / 1) ^ 2 - 1)
        <= 8006399337547548 / 2 ^ 52)%R.
Proof.
  cbv zeta. repeat split; try (vm_compute; reflexivity).
  replace (((5 - 0) / 3) ^ 2 + ((0 - 0) / 1) ^ 2 - 1)%R with (16 / 9)%R
    by field.
  rewrite Rabs_pos_eq by lra.
  replace (2 ^ 52)%R with 4503599627370496%R by (cbn; lra).
  lra.
Qed.

(** C4, amended: an ellipse's boundary test is true exactly when
    [|equationFor(p) - 1| <= epsilon], where [equationFor(p)] is the value
    the program computes, [pow(x - cx, 2) / pow(a, 2) + pow(y - cy, 2) /
    pow(b, 2)]; the comparison is not strict: a deviation equal to [epsilon]
    intersects, whereas for a segment a deviation equal to [epsilon] does
    not. *)
Theorem C4_ellipse_intersects_as_computed :
  forall (env : Binary64.Env) (e : Binary64.EllipseShape)
         (p : Binary64.Point) (epsilon : Binary64.number),
    let equation :=
      Binary64.add
        (Binary64.div
           (Binary64.Math_pow2
              (Binary64.sub (Binary64.x p)
                 (Binary64.x (Binary64.EllipseShape.center e))))
           (Binary64.Math_pow2 (Binary64.EllipseShape.a e)))
        (Binary64.div
           (Binary64.Math_pow2
              (Binary64.sub (Binary64.y p)
                 (Binary64.y (Binary64.EllipseShape.center e))))
           (Binary64.Math_pow2 (Binary64.EllipseShape.b e))) in
    let deviation :=
      Binary64.Math_abs (Binary64.sub equation Binary64.one) in
    (Binary64.EllipseShape.intersects env e p (Some epsilon) = true
     <-> Binary64.leb deviation epsilon = true)
    /\ (Binary64.eqb deviation epsilon = true ->
        Binary64.EllipseShape.intersects env e p (Some epsilon) = true)
    /\ (forall (s : Binary64.Segment),
           Binary64.eqb (Binary64.Spec.segment_deviation s p) epsilon = true ->
           Binary64.Segment.intersects env s p (Some epsilon) = false).
Proof.
  intros env e p epsilon equation deviation. split; [| split].
  - reflexivity.
  - intros Heq. now apply eqb_leb.
  - intros s Heq. unfold Binary64.Segment.intersects.
    cbn [Binary64.epsilon_or_default].
    apply eqb_not_ltb.
    unfold Binary64.Spec.segment_deviation in Heq.
    now rewrite (distanceTo64_sym (Binary64.b s) p).
Qed.

(** The circle of radius 1 around the origin and the point (2,0): the
    equation gives 4, which is 3 away from 1. *)
Lemma C4_ellipse_intersects_as_computed_witness :
  Binary64.EllipseShape.intersects Binary64.initial_env
    (Binary64.new_CircleShape (Binary64.point_Z 0 0) (Binary64.of_Z 1))
    (Binary64.point_Z 2 0) (Some (Binary64.of_Z 3))
  = true.
Proof.
  apply (proj1 (proj2 (C4_ellipse_intersects_as_computed
                         Binary64.initial_env
                         (Binary64.new_CircleShape (Binary64.point_Z 0 0)
                            (Binary64.of_Z 1))
                         (Binary64.point_Z 2 0) (Binary64.of_Z 3)))).
  vm_compute. reflexivity.
Defined.

(** ** Binary64: the area and the direction of traversal *)

(** Swapping the ends of a side negates its term. *)
Lemma shoelace_term_swap (p q : Binary64.Point) :
  Binary64.same_value (SFopp (Binary64.shoelace_term p q))
    (Binary64.shoelace_term q p).
Proof.
  unfold Binary64.shoelace_term.
  rewrite <- div_opp_l.
  rewrite (mul_comm (Binary64.x q)), (mul_comm (Binary64.y q)).
  apply div_same_value_l, sub_anti.
Qed.

(** The three additions [area] makes for three points. *)
Lemma triangle_area_value (p1 p2 p3 : Binary64.Point) :
  Binary64.SegmentedShape.area (Binary64.SegmentedShape.new p1 p2 p3 [])
  = Binary64.Math_abs
      (Binary64.add
         (Binary64.add
            (Binary64.add Binary64.zero (Binary64.shoelace_term p1 p2))
            (Binary64.shoelace_term p2 p3))
         (Binary64.shoelace_term p3 p1)).
Proof. reflexivity. Qed.

(** With three points the reversed sum adds the negated terms in an order
    that differs from the original one by a commutation only. *)
Lemma triangle_area_reversed (p1 p2 p3 : Binary64.Point) :
  Binary64.SegmentedShape.area (Binary64.SegmentedShape.new p3 p2 p1 [])
  = Binary64.SegmentedShape.area (Binary64.SegmentedShape.new p1 p2 p3 []).
Proof.
  rewrite !triangle_area_value.
  set (acc := Binary64.add
                (Binary64.add
                   (Binary64.add Binary64.zero
                      (Binary64.shoelace_term p1 p2))
                   (Binary64.shoelace_term p2 p3))
                (Binary64.shoelace_term p3 p1)).
  rewrite <- (abs_opp acc). symmetry. apply abs_same_value. subst acc.
  apply add_opposites; [| apply shoelace_term_swap].
  eapply same_value_trans.
  { apply opp_same_value.
    apply (add_same_value _ (Binary64.shoelace_term p1 p2)
             _ (Binary64.shoelace_term p2 p3));
      [apply add_zero_l | apply Binary64.same_eq]. }
  rewrite add_comm.
  apply add_opposites; [| apply shoelace_term_swap].
  eapply same_value_trans; [apply shoelace_term_swap |].
  apply same_value_sym, add_zero_l.
Qed.

(** C7, as the specification states it, fails by rounding: the polygon on
    (2^27, 2^27), (2^28 + 1, 1), (2^27 + 1, 2^27), (0, 3) has area 1.5 and
    the polygon on the reversed list has area 0. *)
Lemma C7_reversed_area_differs :
  option_map Binary64.SegmentedShape.area
    (Binary64.SegmentedShape.of_list Binary64.quadrilateral_0)
  = Some (Binary64.ratio 3 2)
  /\ option_map Binary64.SegmentedShape.area
       (Binary64.SegmentedShape.of_list (rev Binary64.quadrilateral_0))
     = Some Binary64.zero
  /\ Binary64.eqb (Binary64.ratio 3 2) Binary64.zero = false.
Proof. repeat split; vm_compute; reflexivity. Qed.

(** C7, amended: for every list of exactly three points (every triangle) the
    polygon built from the reversed list has exactly the same area as the
    polygon built from the list.  (With more points the reversed sum adds
    the negated terms in another order and the two areas can differ by
    rounding.) *)
Theorem C7_triangle_area_reversal :
  forall (l : list Binary64.Point) (s : Binary64.SegmentedShape),
    List.length l = 3%nat ->
    Binary64.SegmentedShape.of_list l = Some s ->
    exists s' : Binary64.SegmentedShape,
      Binary64.SegmentedShape.of_list (rev l) = Some s'
      /\ Binary64.SegmentedShape.area s' = Binary64.SegmentedShape.area s.
Proof.
  intros l s Hlen Hs.
  destruct l as [|p1 [|p2 [|p3 [|p4 l]]]]; try discriminate.
  cbn in Hs. injection Hs as <-.
  exists (Binary64.SegmentedShape.new p3 p2 p1 []). split.
  - reflexivity.
  - apply triangle_area_reversed.
Qed.

(** The README's triangle, whose area is 75 in both directions. *)
Lemma C7_triangle_area_reversal_witness :
  exists s' : Binary64.SegmentedShape,
    Binary64.SegmentedShape.of_list (rev (Binary64.points Binary64.triangle_0))
    = Some s'
    /\ Binary64.SegmentedShape.area s'
       = Binary64.SegmentedShape.area Binary64.triangle_0.
Proof.
  apply (C7_triangle_area_reversal (Binary64.points Binary64.triangle_0)
           Binary64.triangle_0); reflexivity.
Defined.

(** ** Binary64: the arrays of a polygon *)

Lemma next_index64_mod (pts : list Binary64.Point) (i : nat) :
  (i < List.length pts)%nat ->
  Binary64.SegmentedShape.next_index pts i
  = ((i + 1) mod List.length pts)%nat.
Proof.
  intros Hi. unfold Binary64.SegmentedShape.next_index.
  destruct (Nat.eqb_spec i (List.length pts - 1)) as [Heq | Hne].
  - replace (i + 1)%nat with (List.length pts) by lia.
    now rewrite Nat.Div0.mod_same.
  - rewrite Nat.mod_small; lia.
Qed.

Lemma at64_nth_error (pts : list Binary64.Point) (i : nat) :
  (i < List.length pts)%nat ->
  nth_error pts i = Some (Binary64.SegmentedShape.at_ pts i).
Proof. intros Hi. now apply nth_error_nth'. Qed.

Lemma new64_segment_at (p1 p2 p3 : Binary64.Point)
  (rest : list Binary64.Point) (i : nat) :
  let given := p1 :: p2 :: p3 :: rest in
  (i < List.length given)%nat ->
  nth_error (Binary64.segments (Binary64.SegmentedShape.new p1 p2 p3 rest)) i
  = Some (Binary64.new_Segment (Binary64.SegmentedShape.at_ given i)
            (Binary64.SegmentedShape.at_ given
               ((i + 1) mod List.length given))).
Proof.
  intros given Hi.
  unfold Binary64.SegmentedShape.new; cbn [Binary64.segments].
  unfold Array_map. rewrite map_from_nth_error.
  fold given. rewrite (at64_nth_error given i Hi). cbn [option_map Nat.add].
  now rewrite next_index64_mod.
Qed.

(** C9: the polygon built from the points [p1, p2, p3, ...rest] stores
    exactly these N = 3 + |rest| points, in this order, and N segments;
    segment [i] goes from the given point [i] to the given point
    [(i + 1) mod N].  A rectangle stores its two corners and the two
    computed ones and the four sides between them, a square is the
    rectangle on [topLeft] and [(topLeft.x + side, topLeft.y - side)], a
    triangle stores its three points and the sides ab, bc and ca. *)
Theorem C9_segments_follow_points :
  forall (p1 p2 p3 : Binary64.Point) (rest : list Binary64.Point),
    let given := p1 :: p2 :: p3 :: rest in
    let s := Binary64.SegmentedShape.new p1 p2 p3 rest in
    let N := (3 + List.length rest)%nat in
    Binary64.points s = given
    /\ List.length (Binary64.points s) = N
    /\ List.length (Binary64.segments s) = N
    /\ (forall i : nat,
           (i < N)%nat ->
           exists first second : Binary64.Point,
             nth_error given i = Some first
             /\ nth_error given ((i + 1) mod N) = Some second
             /\ nth_error (Binary64.points s) i = Some first
             /\ nth_error (Binary64.segments s) i
                = Some (Binary64.new_Segment first second))
    /\ (forall topLeft bottomRight : Binary64.Point,
           let topRight :=
             Binary64.new_Point (Binary64.x bottomRight)
               (Binary64.y topLeft) in
           let bottomLeft :=
             Binary64.new_Point (Binary64.x topLeft)
               (Binary64.y bottomRight) in
           Binary64.points (Binary64.RectangleShape.new topLeft bottomRight)
           = [topLeft; topRight; bottomRight; bottomLeft]
           /\ Binary64.segments
                (Binary64.RectangleShape.new topLeft bottomRight)
              = [Binary64.new_Segment topLeft topRight;
                 Binary64.new_Segment topRight bottomRight;
                 Binary64.new_Segment bottomRight bottomLeft;
                 Binary64.new_Segment bottomLeft topLeft])
    /\ (forall (topLeft : Binary64.Point) (side : Binary64.number),
           Binary64.SquareShape.new topLeft side
           = Binary64.RectangleShape.new topLeft
               (Binary64.new_Point
                  (Binary64.add (Binary64.x topLeft) side)
                  (Binary64.sub (Binary64.y topLeft) side)))
    /\ (forall a b c : Binary64.Point,
           Binary64.points (Binary64.TriangleShape.new a b c) = [a; b; c]
           /\ Binary64.segments (Binary64.TriangleShape.new a b c)
              = [Binary64.new_Segment a b; Binary64.new_Segment b c;
                 Binary64.new_Segment c a]).
Proof.
  intros p1 p2 p3 rest given s N.
  split; [reflexivity |].
  split; [reflexivity |].
  split.
  { unfold s, Binary64.SegmentedShape.new; cbn [Binary64.segments].
    unfold Array_map. now rewrite map_from_length. }
  split.
  { intros i Hi.
    assert (Hlen : List.length given = N) by reflexivity.
    assert (Hpos : N <> 0%nat) by (unfold N; lia).
    assert (Hi' : (i < List.length given)%nat) by (rewrite Hlen; exact Hi).
    exists (Binary64.SegmentedShape.at_ given i),
      (Binary64.SegmentedShape.at_ given ((i + 1) mod N)).
    split; [now apply at64_nth_error |].
    split; [apply at64_nth_error; rewrite Hlen;
            now apply Nat.mod_upper_bound |].
    split; [now apply (at64_nth_error given) |].
    rewrite <- Hlen. now apply new64_segment_at. }
  repeat split.
Qed.

(** The last side of the README's triangle closes it. *)
Lemma C9_segments_follow_points_witness :
  exists first second : Binary64.Point,
    nth_error [Binary64.point_Z 0 0; Binary64.point_Z 10 10;
               Binary64.point_Z 20 5] 2 = Some first
    /\ nth_error [Binary64.point_Z 0 0; Binary64.point_Z 10 10;
                  Binary64.point_Z 20 5] ((2 + 1) mod 3) = Some second
    /\ nth_error (Binary64.points Binary64.triangle_0) 2 = Some first
    /\ nth_error (Binary64.segments Binary64.triangle_0) 2
       = Some (Binary64.new_Segment first second).
Proof.
  refine (proj1 (proj2 (proj2 (proj2 (C9_segments_follow_points
                                        (Binary64.point_Z 0 0)
                                        (Binary64.point_Z 10 10)
                                        (Binary64.point_Z 20 5) []))))
            2%nat _).
  cbn. lia.
Defined.

(** ** Binary64: comparisons *)

Lemma compare_antisym (u v : Binary64.number) :
  SFcompare v u = option_map CompOpp (SFcompare u v).
Proof.
  destruct u as [s1 | s1 | | s1 m1 e1], v as [s2 | s2 | | s2 m2 e2];
    try reflexivity; try (now destruct s1); try (now destruct s2);
    try (now destruct s1, s2).
  cbn. f_equal.
  rewrite (Z.compare_antisym e1 e2).
  assert (Hm : Pos.compare_cont Eq m2 m1
               = CompOpp (Pos.compare_cont Eq m1 m2))
    by (symmetry; apply (Pos.compare_cont_antisym m1 m2 Eq)).
  destruct s1, s2; try reflexivity;
    destruct (Z.compare e1 e2); cbn; try reflexivity;
    now rewrite Hm.
Qed.

(** [u <= v] excludes [u > v]. *)
Lemma leb_not_gtb (u v : Binary64.number) :
  Binary64.leb u v = true -> Binary64.gtb u v = false.
Proof.
  unfold Binary64.leb, Binary64.gtb, SFleb, SFltb.
  rewrite (compare_antisym u v).
  now destruct (SFcompare u v) as [[| |] |].
Qed.

(** ** Binary64: distances and segments *)

(** X1: [distanceTo] gives the same number in both directions; the number
    is never negative (it is at least 0, or [NaN]); and the distance from a
    point with finite coordinates to itself is 0. *)
Theorem X1_distanceTo_symmetric :
  forall p q : Binary64.Point,
    Binary64.Point.distanceTo p q = Binary64.Point.distanceTo q p
    /\ (Binary64.Point.distanceTo p q = S754_nan
        \/ Binary64.leb Binary64.zero (Binary64.Point.distanceTo p q) = true)
    /\ (Binary64.finite_point p ->
        Binary64.Point.distanceTo p p = Binary64.zero).
Proof.
  intros p q. split; [apply distanceTo64_sym | split].
  - apply leb_zero_of_signbit, distanceTo64_signbit.
  - apply distanceTo64_self.
Qed.

Lemma X1_distanceTo_symmetric_witness :
  Binary64.Point.distanceTo (Binary64.point_Z 1 1) (Binary64.point_Z 1 1)
  = Binary64.zero.
Proof.
  apply (proj2 (proj2 (X1_distanceTo_symmetric (Binary64.point_Z 1 1)
                         (Binary64.point_Z 1 1)))).
  split; reflexivity.
Defined.

(** X3: neither the length of a segment nor its boundary test depends on
    the order of its endpoints. *)
Theorem X3_segment_orientation :
  forall (env : Binary64.Env) (p q r : Binary64.Point)
         (epsilon : option Binary64.number),
    Binary64.Segment.length (Binary64.new_Segment p q)
    = Binary64.Segment.length (Binary64.new_Segment q p)
    /\ Binary64.Segment.intersects env (Binary64.new_Segment p q) r epsilon
       = Binary64.Segment.intersects env (Binary64.new_Segment q p) r epsilon.
Proof.
  intros env p q r epsilon.
  unfold Binary64.Segment.length, Binary64.Segment.intersects;
    cbn [Binary64.a Binary64.b].
  split; [apply distanceTo64_sym |].
  now rewrite (distanceTo64_sym q p),
    (add_comm (Binary64.Point.distanceTo q r)).
Qed.

(** At an endpoint the deviation is exactly 0 when the length is finite. *)
Lemma endpoint_deviation (p q : Binary64.Point) :
  Binary64.finite_point p ->
  Binary64.is_finite (Binary64.Point.distanceTo p q) = true ->
  Binary64.Math_abs
    (Binary64.sub
       (Binary64.add (Binary64.Point.distanceTo p p)
          (Binary64.Point.distanceTo q p))
       (Binary64.Point.distanceTo p q))
  = Binary64.zero.
Proof.
  intros Hp Hfin.
  rewrite (distanceTo64_self p Hp), (distanceTo64_sym q p).
  rewrite add_zero_l_exact by apply distanceTo64_signbit.
  now rewrite sub_diag.
Qed.

(** X6: both endpoints of a segment pass its boundary test for every
    positive [epsilon], provided their coordinates are finite and the length
    of the segment does not overflow. *)
Theorem X6_segment_endpoints_intersect :
  forall (env : Binary64.Env) (s : Binary64.Segment)
         (epsilon : Binary64.number),
    Binary64.finite_point (Binary64.a s) ->
    Binary64.finite_point (Binary64.b s) ->
    Binary64.is_finite (Binary64.Segment.length s) = true ->
    Binary64.ltb Binary64.zero epsilon = true ->
    Binary64.Segment.intersects env s (Binary64.a s) (Some epsilon) = true
    /\ Binary64.Segment.intersects env s (Binary64.b s) (Some epsilon) = true.
Proof.
  intros env s epsilon Ha Hb Hfin Heps.
  unfold Binary64.Segment.length in Hfin.
  unfold Binary64.Segment.intersects; cbn [Binary64.epsilon_or_default].
  split.
  - now rewrite endpoint_deviation.
  - rewrite (add_comm (Binary64.Point.distanceTo (Binary64.a s) (Binary64.b s))).
    rewrite (distanceTo64_sym (Binary64.a s) (Binary64.b s)) at 2.
    rewrite (distanceTo64_sym (Binary64.a s) (Binary64.b s)) in Hfin.
    now rewrite endpoint_deviation.
Qed.

(** The README's segment from (1,1) to (5,5), with the initial default as
    explicit tolerance. *)
Lemma X6_segment_endpoints_intersect_witness :
  Binary64.Segment.intersects Binary64.initial_env
    (Binary64.new_Segment (Binary64.point_Z 1 1) (Binary64.point_Z 5 5))
    (Binary64.point_Z 1 1) (Some (Binary64.ratio 1 100))
  = true.
Proof.
  apply (proj1 (X6_segment_endpoints_intersect Binary64.initial_env
                  (Binary64.new_Segment (Binary64.point_Z 1 1)
                     (Binary64.point_Z 5 5))
                  (Binary64.ratio 1 100)
                  (conj eq_refl eq_refl) (conj eq_refl eq_refl)
                  eq_refl eq_refl)).
Defined.

(** ** Binary64: the boundary of a polygon *)

(** X9: every vertex of a polygon passes the boundary test of the polygon
    for every positive [epsilon], provided the vertex and the next one have
    finite coordinates and the side between them a finite length. *)
Theorem X9_polygon_vertices_intersect :
  forall (env : Binary64.Env) (p1 p2 p3 : Binary64.Point)
         (rest : list Binary64.Point) (i : nat) (epsilon : Binary64.number),
    let given := p1 :: p2 :: p3 :: rest in
    let s := Binary64.SegmentedShape.new p1 p2 p3 rest in
    let N := List.length given in
    let vertex := Binary64.SegmentedShape.at_ given i in
    let next := Binary64.SegmentedShape.at_ given ((i + 1) mod N) in
    (i < N)%nat ->
    Binary64.finite_point vertex ->
    Binary64.finite_point next ->
    Binary64.is_finite (Binary64.Point.distanceTo vertex next) = true ->
    Binary64.ltb Binary64.zero epsilon = true ->
    Binary64.SegmentedShape.intersects env s vertex (Some epsilon) = true.
Proof.
  intros env p1 p2 p3 rest i epsilon given s N vertex next
    Hi Hv Hn Hfin Heps.
  unfold Binary64.SegmentedShape.intersects;
    cbn [Binary64.epsilon_or_default].
  apply existsb_exists.
  exists (Binary64.new_Segment vertex next). split.
  - eapply nth_error_In. now apply new64_segment_at.
  - unfold Binary64.Segment.intersects;
      cbn [Binary64.epsilon_or_default Binary64.a Binary64.b].
    now rewrite endpoint_deviation.
Qed.

(** The vertex (10,10) of the README's triangle. *)
Lemma X9_polygon_vertices_intersect_witness :
  Binary64.SegmentedShape.intersects Binary64.initial_env
    Binary64.triangle_0 (Binary64.point_Z 10 10)
    (Some (Binary64.ratio 1 100))
  = true.
Proof.
  apply (X9_polygon_vertices_intersect Binary64.initial_env
           (Binary64.point_Z 0 0) (Binary64.point_Z 10 10)
           (Binary64.point_Z 20 5) [] 1 (Binary64.ratio 1 100)).
  - cbn. lia.
  - split; reflexivity.
  - split; reflexivity.
  - reflexivity.
  - reflexivity.
Defined.

(** ** Binary64: ray casting above and below a polygon *)

Section Contains64.

Variables (pts : list Binary64.Point) (point : Binary64.Point).

Lemma at64_In (i : nat) :
  (i < List.length pts)%nat -> In (Binary64.SegmentedShape.at_ pts i) pts.
Proof. intros Hi. now apply nth_In. Qed.

Lemma crossing64_skipped (i j : nat) :
  Binary64.gtb (Binary64.y (Binary64.SegmentedShape.at_ pts i))
    (Binary64.y point)
  = Binary64.gtb (Binary64.y (Binary64.SegmentedShape.at_ pts j))
      (Binary64.y point) ->
  Binary64.SegmentedShape.crossing pts point i j = false.
Proof.
  intros Heq. unfold Binary64.SegmentedShape.crossing.
  now rewrite Heq, Bool.eqb_reflx.
Qed.

(** While no crossing test succeeds [hit] stays false; [j] stays an index
    of the array. *)
Lemma loop64_no_crossing (l : list nat) :
  (forall i j : nat,
      (i < List.length pts)%nat -> (j < List.length pts)%nat ->
      Binary64.SegmentedShape.crossing pts point i j = false) ->
  Forall (fun i => (i < List.length pts)%nat) l ->
  forall j : nat,
    (j < List.length pts)%nat ->
    snd (fold_left (Binary64.SegmentedShape.loop_body pts point) l (j, false))
    = false.
Proof.
  intros Hnone. induction l as [|i l IH]; intros Hl j Hj; [reflexivity |].
  inversion Hl as [|? ? Hi Hl']; subst.
  cbn [fold_left Binary64.SegmentedShape.loop_body].
  rewrite (Hnone i j Hi Hj). now apply IH.
Qed.

End Contains64.

Lemma contains64_no_crossing (s : Binary64.SegmentedShape)
  (p : Binary64.Point) :
  (forall i j : nat,
      (i < List.length (Binary64.points s))%nat ->
      (j < List.length (Binary64.points s))%nat ->
      Binary64.SegmentedShape.crossing (Binary64.points s) p i j = false) ->
  Binary64.SegmentedShape.contains s p = false.
Proof.
  intros Hnone. unfold Binary64.SegmentedShape.contains.
  destruct (Binary64.points s) as [|q l] eqn:Hpts; [reflexivity |].
  apply loop64_no_crossing.
  - exact Hnone.
  - apply Forall_forall. intros i Hi. apply in_seq in Hi. lia.
  - cbn. lia.
Qed.

(** X10: [contains] is false for every point at or above the highest point
    of the polygon and for every point strictly below the lowest one: no
    edge passes the left operand of [&&]. *)
Theorem X10_contains_above_below :
  forall (s : Binary64.SegmentedShape) (p : Binary64.Point),
    (Forall (fun q => Binary64.leb (Binary64.y q) (Binary64.y p) = true)
       (Binary64.points s)
     \/ Forall (fun q => Binary64.ltb (Binary64.y p) (Binary64.y q) = true)
          (Binary64.points s)) ->
    Binary64.SegmentedShape.contains s p = false.
Proof.
  intros s p Hall.
  apply contains64_no_crossing. intros i j Hi Hj.
  apply crossing64_skipped.
  destruct Hall as [Habove | Hbelow].
  - rewrite Forall_forall in Habove.
    rewrite !leb_not_gtb; [reflexivity | |]; apply Habove, at64_In;
      assumption.
  - rewrite Forall_forall in Hbelow.
    unfold Binary64.gtb.
    pose proof (Hbelow _ (at64_In (Binary64.points s) i Hi)) as Hyi.
    pose proof (Hbelow _ (at64_In (Binary64.points s) j Hj)) as Hyj.
    unfold Binary64.ltb in Hyi, Hyj. now rewrite Hyi, Hyj.
Qed.

(** The README's rectangle and the point (10,21) above it. *)
Lemma X10_contains_above_below_witness :
  Binary64.SegmentedShape.contains Binary64.rectangle_0
    (Binary64.point_Z 10 21) = false.
Proof.
  apply X10_contains_above_below. left.
  repeat constructor.
Defined.

(** ** Binary64: triangles *)

(** X15: the three sides of a triangle are the segments from [a] to [b],
    from [b] to [c] and from [c] back to [a] (the one [sideAC] returns), and
    none of the accessors throws; its perimeter is the sum of the three
    distances, added in this order. *)
Theorem X15_triangle_sides :
  forall a b c : Binary64.Point,
    let t := Binary64.TriangleShape.new a b c in
    Binary64.TriangleShape.sideAB t = Return (Some (Binary64.new_Segment a b))
    /\ Binary64.TriangleShape.sideBC t
       = Return (Some (Binary64.new_Segment b c))
    /\ Binary64.TriangleShape.sideAC t
       = Return (Some (Binary64.new_Segment c a))
    /\ Binary64.SegmentedShape.perimeter t
       = Binary64.add
           (Binary64.add (Binary64.Point.distanceTo a b)
              (Binary64.Point.distanceTo b c))
           (Binary64.Point.distanceTo c a).
Proof.
  intros a b c t. repeat split.
  unfold t, Binary64.SegmentedShape.perimeter, Array_reduce.
  cbn [Binary64.TriangleShape.new Binary64.SegmentedShape.new
         Binary64.points reduce_from].
  now rewrite add_zero_l_exact by apply distanceTo64_signbit.
Qed.

(** ** Binary64: the perimeter is never negative *)

Lemma reduce_distances_signbit (next : nat -> Binary64.Point)
  (l : list Binary64.Point) :
  forall (k : nat) (acc : Binary64.number),
    Binary64.signbit acc = false ->
    Binary64.signbit
      (reduce_from
         (fun acc p i => Binary64.add acc (Binary64.Point.distanceTo p (next i)))
         k acc l)
    = false.
Proof.
  induction l as [|p l IH]; intros k acc Hacc; cbn [reduce_from].
  - exact Hacc.
  - apply IH, add_signbit_false; [exact Hacc | apply distanceTo64_signbit].
Qed.

(** X16: the perimeter of a polygon is never negative: it is at least 0, or
    [NaN]. *)
Theorem X16_perimeter_never_negative :
  forall s : Binary64.SegmentedShape,
    Binary64.SegmentedShape.perimeter s = S754_nan
    \/ Binary64.leb Binary64.zero (Binary64.SegmentedShape.perimeter s) = true.
Proof.
  intros s. apply leb_zero_of_signbit.
  unfold Binary64.SegmentedShape.perimeter, Array_reduce.
  apply (reduce_distances_signbit
           (fun i => Binary64.SegmentedShape.at_ (Binary64.points s)
                       (Binary64.SegmentedShape.next_index
                          (Binary64.points s) i))).
  reflexivity.
Qed.
